(** * Verification of backend/services/langflow_service.py

    Shallow embedding of the Langflow client service: the retry-with-backoff
    request primitive [_make_request_with_retry], the flow listing
    [get_flows] and the flow execution [execute_flow].

    The network is an oracle [net : nat -> transport] telling what
    [client.request] does on each attempt (indexed from 0).  Effects
    ([client.request] calls and [asyncio.sleep]) are recorded in a trace;
    Python exceptions are the error branch of a small writer/error monad. *)

From Stdlib Require Import String Ascii List Arith Lia Bool.
Import ListNotations.
Set Warnings "-register-all".
Open Scope list_scope.
Open Scope string_scope.

(* ------------------------------------------------------------------ *)
(** ** Python values *)

(** JSON values as produced by [response.json()]: Python [None], [bool],
    [int], [str], [list] and [dict] (a dict as an association list in
    insertion order).  Floats are not modelled. *)
Inductive json : Type :=
| JNull
| JBool (b : bool)
| JInt (z : nat)
| JNegInt (z : nat)          (* the integer -(z+1) *)
| JString (s : string)
| JArray (l : list json)
| JObject (kvs : list (string * json)).

(** [type(v).__name__] *)
Definition type_name (v : json) : string :=
  match v with
  | JNull => "NoneType"
  | JBool _ => "bool"
  | JInt _ | JNegInt _ => "int"
  | JString _ => "str"
  | JArray _ => "list"
  | JObject _ => "dict"
  end.

(** [key in d] and [d[key]] on a dict. *)
Fixpoint dict_get (k : string) (kvs : list (string * json)) : option json :=
  match kvs with
  | [] => None
  | (k', v) :: rest => if String.eqb k k' then Some v else dict_get k rest
  end.

(** [str(n)] for a non-negative Python int. *)
Fixpoint digits_aux (fuel n : nat) (acc : string) : string :=
  match fuel with
  | 0 => acc
  | S f =>
      let acc' := String (ascii_of_nat (48 + n mod 10)) acc in
      if Nat.ltb n 10 then acc' else digits_aux f (n / 10) acc'
  end.

Definition str_of_nat (n : nat) : string := digits_aux (S n) n "".

(** [sub in s] for strings. *)
Definition str_contains (s sub : string) : Prop :=
  exists pre post, s = pre ++ sub ++ post.

(* ------------------------------------------------------------------ *)
(** ** HTTP layer (httpx) *)

(** An [httpx.Response]: status code, reason phrase, body text and the
    outcome of [response.json()] ([inr msg] when the body is not JSON:
    [json.JSONDecodeError] with message [msg]). *)
Record response : Type := mk_response {
  status_code : nat;
  reason_phrase : string;
  text : string;
  body : json + string
}.

(** The arguments of one [client.request(method, url, **kwargs)] call. *)
Record request : Type := mk_request {
  rq_method : string;
  rq_url : string;
  rq_params : list (string * string);
  rq_json : option json;
  rq_headers : list (string * string)
}.

(** What [client.request] does on one attempt: returns a response, or
    raises [httpx.TimeoutException], [httpx.ConnectError], or any other
    exception (e.g. [httpx.ReadError]) given by its class and message. *)
Inductive transport : Type :=
| Responded (r : response)
| TimedOut (msg : string)
| ConnectFailed (msg : string)
| TransportFailed (cls msg : string).

(** Python exceptions that may leave the modelled code.  [ServiceError] is
    [LangflowServiceError]; [StatusError] is [httpx.HTTPStatusError]. *)
Inductive exc : Type :=
| ServiceError (msg : string)
| TimeoutError (msg : string)
| ConnectError (msg : string)
| StatusError (r : response) (msg : string)
| ValidationError (msg : string)
| OtherError (cls msg : string).

(** [str(e)] *)
Definition exc_str (e : exc) : string :=
  match e with
  | ServiceError m | TimeoutError m | ConnectError m => m
  | StatusError _ m => m
  | ValidationError m => m
  | OtherError _ m => m
  end.

Definition is_service_error (e : exc) : bool :=
  match e with ServiceError _ => true | _ => false end.

(** [response.is_success] *)
Definition is_success (r : response) : bool :=
  Nat.leb 200 (status_code r) && Nat.ltb (status_code r) 300.

(** The message of the [HTTPStatusError] raised by
    [response.raise_for_status()] (httpx): error type by status class. *)
Definition status_error_message (url : string) (r : response) : string :=
  let error_type :=
    match status_code r / 100 with
    | 1 => "Informational response"
    | 3 => "Redirect response"
    | 4 => "Client error"
    | 5 => "Server error"
    | _ => "Invalid status code"
    end in
  error_type ++ " '" ++ str_of_nat (status_code r) ++ " " ++ reason_phrase r
  ++ "' for url '" ++ url ++ "'".

(* ------------------------------------------------------------------ *)
(** ** The effect monad *)

(** Observable effects: one [client.request] call, one [asyncio.sleep]. *)
Inductive event : Type :=
| EvRequest (rq : request)
| EvSleep (secs : nat).

(** A computation returns its trace and either a value or a raised
    exception. *)
Definition M (A : Type) : Type := list event * (A + exc).

Definition ret {A} (a : A) : M A := ([], inl a).
Definition raise {A} (e : exc) : M A := ([], inr e).
Definition tell (ev : event) : M unit := ([ev], inl tt).

Definition bind {A B} (m : M A) (f : A -> M B) : M B :=
  match m with
  | (t, inl a) => let (t', r) := f a in ((t ++ t')%list, r)
  | (t, inr e) => (t, inr e)
  end.

Notation "x <- m ;; k" := (bind m (fun x => k))
  (at level 61, m at next level, right associativity).
Notation "m ;; k" := (bind m (fun _ => k))
  (at level 61, right associativity).

(** [try: m except: h(e)] *)
Definition catch {A} (m : M A) (h : exc -> M A) : M A :=
  match m with
  | (t, inl a) => (t, inl a)
  | (t, inr e) => let (t', r) := h e in ((t ++ t')%list, r)
  end.

(* ------------------------------------------------------------------ *)
(** ** URLs: [str.rstrip('/')] and [urllib.parse.urljoin] *)

Fixpoint drop_slashes (cs : list ascii) : list ascii :=
  match cs with
  | c :: rest => if Ascii.eqb c "/"%char then drop_slashes rest else cs
  | [] => []
  end.

(** [s.rstrip('/')] *)
Definition rstrip_slash (s : string) : string :=
  string_of_list_ascii (rev (drop_slashes (rev (list_ascii_of_string s)))).

(** [s.split('/')] *)
Fixpoint split_slash_aux (s cur : string) : list string :=
  match s with
  | EmptyString => [cur]
  | String c rest =>
      if Ascii.eqb c "/"%char then cur :: split_slash_aux rest ""
      else split_slash_aux rest (cur ++ String c "")
  end.

Definition split_slash (s : string) : list string := split_slash_aux s "".

(** ['/'.join(segs)] *)
Fixpoint join_slash (segs : list string) : string :=
  match segs with
  | [] => ""
  | [x] => x
  | x :: rest => x ++ "/" ++ join_slash rest
  end.

(** The dot-segment loop of [urljoin]: [".."] pops ([IndexError] ignored),
    ["."] is dropped, anything else is pushed; [acc] is the reversed
    [resolved_path]. *)
Fixpoint resolve_segments (segs acc : list string) : list string :=
  match segs with
  | [] => rev acc
  | seg :: rest =>
      if String.eqb seg ".." then resolve_segments rest (tl acc)
      else if String.eqb seg "." then resolve_segments rest acc
      else resolve_segments rest (seg :: acc)
  end.

(** First occurrence of character [c]: the text before and after it. *)
Fixpoint break_at (c : ascii) (s : string) : option (string * string) :=
  match s with
  | EmptyString => None
  | String c' rest =>
      if Ascii.eqb c c' then Some ("", rest)
      else match break_at c rest with
           | Some (pre, post) => Some (String c' pre, post)
           | None => None
           end
  end.

(** [c in s] *)
Definition str_has (c : ascii) (s : string) : bool :=
  existsb (Ascii.eqb c) (list_ascii_of_string s).

(** [x in l] for a list of strings *)
Definition str_mem (x : string) (l : list string) : bool := existsb (String.eqb x) l.

(** [s.split(c, 1)] when [c in s], else [s] and [""]. *)
Definition split_once (c : ascii) (s : string) : string * string :=
  match break_at c s with Some p => p | None => (s, "") end.

(** [_WHATWG_C0_CONTROL_OR_SPACE]: the characters [\x00] to [\x20]. *)
Definition c0_or_space (c : ascii) : bool := Nat.leb (nat_of_ascii c) 32.

(** [s.lstrip(chars)] for the characters satisfying [p]. *)
Fixpoint lstrip_by (p : ascii -> bool) (s : string) : string :=
  match s with
  | String c rest => if p c then lstrip_by p rest else s
  | EmptyString => EmptyString
  end.

(** [s.strip(chars)] *)
Definition strip_by (p : ascii -> bool) (s : string) : string :=
  string_of_list_ascii
    (rev (list_ascii_of_string (lstrip_by p (string_of_list_ascii
       (rev (list_ascii_of_string (lstrip_by p s))))))).

(** [_UNSAFE_URL_BYTES_TO_REMOVE = ['\t', '\r', '\n']] *)
Definition url_unsafe (c : ascii) : bool :=
  Ascii.eqb c "009"%char || Ascii.eqb c "013"%char || Ascii.eqb c "010"%char.

(** [for b in _UNSAFE_URL_BYTES_TO_REMOVE: s = s.replace(b, "")] *)
Definition remove_unsafe (s : string) : string :=
  string_of_list_ascii (filter (fun c => negb (url_unsafe c)) (list_ascii_of_string s)).

Definition ascii_alpha (c : ascii) : bool :=
  let n := nat_of_ascii c in (Nat.leb 65 n && Nat.leb n 90) || (Nat.leb 97 n && Nat.leb n 122).

Definition ascii_digit (c : ascii) : bool :=
  let n := nat_of_ascii c in Nat.leb 48 n && Nat.leb n 57.

(** [scheme_chars]: letters, digits and ["+-."]. *)
Definition scheme_char (c : ascii) : bool :=
  ascii_alpha c || ascii_digit c || Ascii.eqb c "+"%char || Ascii.eqb c "-"%char
  || Ascii.eqb c "."%char.

(** [c.lower()] on ASCII letters, other characters unchanged. *)
Definition ascii_lower (c : ascii) : ascii :=
  let n := nat_of_ascii c in
  if Nat.leb 65 n && Nat.leb n 90 then ascii_of_nat (n + 32) else c.

Definition str_lower (s : string) : string :=
  string_of_list_ascii (map ascii_lower (list_ascii_of_string s)).

(** [_splitnetloc(url, 2)] on the text after the leading ["//"]: up to the
    first of ['/'], ['?'], ['#'], and the rest from that delimiter on. *)
Fixpoint split_netloc (s : string) : string * string :=
  match s with
  | EmptyString => ("", "")
  | String c rest =>
      if Ascii.eqb c "/"%char || Ascii.eqb c "?"%char || Ascii.eqb c "#"%char then ("", s)
      else let '(n, r) := split_netloc rest in (String c n, r)
  end.

(** [urlsplit(url, scheme)]: scheme, netloc, path, query, fragment.  The
    [ValueError] raised for unbalanced or invalid brackets in the netloc
    and the NFKC check of a non-ASCII netloc are not modelled. *)
Definition urlsplit (url scheme : string) : string * string * string * string * string :=
  let url := remove_unsafe (lstrip_by c0_or_space url) in
  let scheme := remove_unsafe (strip_by c0_or_space scheme) in
  let '(scheme, url) :=
    match break_at ":"%char url with
    | Some ((String c0 _) as pre, post) =>
        if (Nat.ltb (nat_of_ascii c0) 128 && ascii_alpha c0)
           && forallb scheme_char (list_ascii_of_string pre)
        then (str_lower pre, post) else (scheme, url)
    | _ => (scheme, url)
    end in
  let '(netloc, url) :=
    match url with
    | String "/" (String "/" rest) => split_netloc rest
    | _ => ("", url)
    end in
  let '(url, fragment) := split_once "#"%char url in
  let '(url, query) := split_once "?"%char url in
  (scheme, netloc, url, query, fragment).

Definition uses_relative : list string :=
  [""; "ftp"; "http"; "gopher"; "nntp"; "imap"; "wais"; "file"; "https"; "shttp"; "mms";
   "prospero"; "rtsp"; "rtspu"; "sftp"; "svn"; "svn+ssh"; "ws"; "wss"].

Definition uses_netloc : list string :=
  [""; "ftp"; "http"; "gopher"; "nntp"; "telnet"; "imap"; "wais"; "file"; "mms"; "https";
   "shttp"; "snews"; "prospero"; "rtsp"; "rtspu"; "rsync"; "svn"; "svn+ssh"; "sftp"; "nfs";
   "git"; "git+ssh"; "ws"; "wss"].

Definition uses_params : list string :=
  [""; "ftp"; "hdl"; "prospero"; "http"; "imap"; "https"; "shttp"; "rtsp"; "rtspu"; "sip";
   "sips"; "mms"; "sftp"; "tel"].

(** [s] cut after its last ['/']: the part up to and including it, and
    the last segment. *)
Fixpoint split_last_slash_rev (r : list ascii) (seg : list ascii) : list ascii * list ascii :=
  match r with
  | [] => ([], seg)
  | c :: rest =>
      if Ascii.eqb c "/"%char then (rev r, seg) else split_last_slash_rev rest (c :: seg)
  end.

Definition split_last_slash (s : string) : string * string :=
  let '(d, seg) := split_last_slash_rev (rev (list_ascii_of_string s)) [] in
  (string_of_list_ascii d, string_of_list_ascii seg).

(** [_splitparams(url)]: the first [';'] after the last ['/']. *)
Definition splitparams (url : string) : string * string :=
  let '(d, seg) := split_last_slash url in
  match break_at ";"%char seg with
  | Some (a, b) => (d ++ a, b)
  | None => (url, "")
  end.

(** [urlparse(url, scheme)]: scheme, netloc, path, params, query, fragment. *)
Definition urlparse (url scheme : string)
    : string * string * string * string * string * string :=
  let '(scheme, netloc, url, query, fragment) := urlsplit url scheme in
  let '(url, params) :=
    if str_mem scheme uses_params && str_has ";"%char url then splitparams url else (url, "") in
  (scheme, netloc, url, params, query, fragment).

(** [urlunsplit] *)
Definition urlunsplit (scheme netloc url query fragment : string) : string :=
  let url :=
    if negb (String.eqb netloc "")
       || (negb (String.eqb scheme "") && str_mem scheme uses_netloc
           && negb (String.prefix "//" url))
    then
      let url := match url with
                 | EmptyString => url
                 | String "/" _ => url
                 | _ => "/" ++ url
                 end in
      "//" ++ netloc ++ url
    else url in
  let url := if String.eqb scheme "" then url else scheme ++ ":" ++ url in
  let url := if String.eqb query "" then url else url ++ "?" ++ query in
  if String.eqb fragment "" then url else url ++ "#" ++ fragment.

(** [urlunparse] *)
Definition urlunparse (scheme netloc url params query fragment : string) : string :=
  let url := if String.eqb params "" then url else url ++ ";" ++ params in
  urlunsplit scheme netloc url query fragment.

(** [segments[1:-1] = filter(None, segments[1:-1])] *)
Definition filter_middle (l : list string) : list string :=
  match l with
  | x :: ((_ :: _) as rest) =>
      x :: (filter (fun s => negb (String.eqb s "")) (removelast rest) ++ [last rest ""])%list
  | _ => l
  end.

(** [urllib.parse.urljoin(base, url)] *)
Definition urljoin (base url : string) : string :=
  if String.eqb base "" then url else
  if String.eqb url "" then base else
  let '(bscheme, bnetloc, bpath, bparams, bquery, _) := urlparse base "" in
  let '(scheme, netloc, path, params, query, fragment) := urlparse url bscheme in
  if negb (String.eqb scheme bscheme) || negb (str_mem scheme uses_relative) then url else
  if str_mem scheme uses_netloc && negb (String.eqb netloc "")
  then urlunparse scheme netloc path params query fragment else
  let netloc := if str_mem scheme uses_netloc then bnetloc else netloc in
  if String.eqb path "" && String.eqb params "" then
    urlunparse scheme netloc bpath bparams (if String.eqb query "" then bquery else query) fragment
  else
  let base_parts := split_slash bpath in
  let base_parts := if String.eqb (last base_parts "") "" then base_parts
                    else removelast base_parts in
  let segments :=
    match path with
    | String "/" _ => split_slash path
    | _ => filter_middle (base_parts ++ split_slash path)%list
    end in
  let resolved_path := resolve_segments segments [] in
  let resolved_path :=
    if str_mem (last segments "") ["."; ".."] then (resolved_path ++ [""])%list
    else resolved_path in
  let p := match join_slash resolved_path with EmptyString => "/" | p => p end in
  urlunparse scheme netloc p params query fragment.

(** Characters of a netloc on which [urljoin] behaves as plain text: ASCII
    (no NFKC check), none of the delimiters ['/'], ['?'], ['#'], no
    brackets (no IPv6 parsing) and none of the removed ['\t'], ['\r'],
    ['\n']. *)
Definition netloc_char (c : ascii) : bool :=
  Nat.ltb (nat_of_ascii c) 128 && negb (str_has c "/?#[]") && negb (url_unsafe c).

(** Characters of a path segment kept as is by [urljoin]: no ['/'], no
    query, fragment or params delimiter, none of the removed characters. *)
Definition segment_char (c : ascii) : bool :=
  negb (str_has c "/?#;") && negb (url_unsafe c).

(** Characters of a path kept as is by [urljoin]. *)
Definition path_char (c : ascii) : bool :=
  negb (str_has c "?#;") && negb (url_unsafe c).

(** [LangflowService(base_url, timeout)]: the attributes the modelled
    methods read. *)
Record service : Type := mk_service_raw {
  base_url : string
}.

(** [LangflowService.__init__]: [self.base_url = base_url.rstrip('/')]. *)
Definition LangflowService (base : string) : service :=
  mk_service_raw (rstrip_slash base).

Definition default_service : service := LangflowService "http://localhost:7860".

(* ------------------------------------------------------------------ *)
(** ** [_make_request_with_retry] *)

(** How one [client.request] followed by [response.raise_for_status()] ends
    inside the [try] of the loop body. *)
Inductive step : Type :=
| Done (r : response)      (* [return response] *)
| Fatal (e : exc)          (* an exception leaving the loop *)
| Retry (e : exc).         (* [last_exception = e], go on *)

Definition classify (url : string) (t : transport) : step :=
  match t with
  | Responded r =>
      if is_success r then Done r
      else
        (* [except httpx.HTTPStatusError as e] *)
        let code := status_code r in
        if Nat.leb 400 code && Nat.ltb code 500 then
          Fatal (ServiceError ("Client error " ++ str_of_nat code ++ ": " ++ text r))
        else Retry (StatusError r (status_error_message url r))
  | TimedOut m => Retry (TimeoutError m)
  | ConnectFailed m => Retry (ConnectError m)
  | TransportFailed cls m => Fatal (OtherError cls m)
  end.

(** [str(last_exception)] ([None] prints as ["None"]). *)
Definition opt_exc_str (o : option exc) : string :=
  match o with Some e => exc_str e | None => "None" end.

(** The [for attempt in range(max_retries + 1)] loop: [k] iterations are
    left, the current one is [attempt]. *)
Fixpoint retry_loop (net : nat -> transport) (rq : request)
    (max_retries attempt k : nat) (last : option exc) : M response :=
  match k with
  | 0 =>
      raise (ServiceError ("Failed to make request after "
        ++ str_of_nat (max_retries + 1) ++ " attempts: " ++ opt_exc_str last))
  | S k' =>
      tell (EvRequest rq) ;;
      match classify (rq_url rq) (net attempt) with
      | Done r => ret r
      | Fatal e => raise e
      | Retry e =>
          (if Nat.ltb attempt max_retries
           then tell (EvSleep (2 ^ attempt)) else ret tt) ;;
          retry_loop net rq max_retries (S attempt) k' (Some e)
      end
  end.

Definition make_request_with_retry (net : nat -> transport) (rq : request)
    (max_retries : nat) : M response :=
  retry_loop net rq max_retries 0 (S max_retries) None.

(* ------------------------------------------------------------------ *)
(** ** Pydantic models *)

(** [class FlowResponse(BaseModel)] *)
Record FlowResponse : Type := mk_FlowResponse {
  id : string;
  name : string;
  folder_id : string;
  is_component : bool;
  endpoint_name : option string;
  description : string;
  data : json;                       (* Optional[Any] = None *)
  access_type : string;
  tags : list string;
  mcp_enabled : bool;
  action_name : option string;
  action_description : option string
}.

(** Field validators (pydantic lax mode on Python input).  A missing
    required field and a wrong type both fail. *)
Definition v_str (o : option json) : option string :=
  match o with Some (JString s) => Some s | _ => None end.

(** [bool] in lax mode: a bool, the ints [0] and [1], or a str equal,
    ignoring ASCII case, to one of the true or false spellings. *)
Definition v_bool (o : option json) : option bool :=
  match o with
  | Some (JBool b) => Some b
  | Some (JInt 0) => Some false
  | Some (JInt 1) => Some true
  | Some (JString s) =>
      let s := str_lower s in
      if existsb (String.eqb s) ["1"; "on"; "t"; "true"; "y"; "yes"] then Some true
      else if existsb (String.eqb s) ["0"; "off"; "f"; "false"; "n"; "no"] then Some false
      else None
  | _ => None
  end.

(** [Optional[str] = None]: the outer option is success. *)
Definition v_opt_str (o : option json) : option (option string) :=
  match o with
  | None | Some JNull => Some None
  | Some (JString s) => Some (Some s)
  | _ => None
  end.

Fixpoint v_str_list (l : list json) : option (list string) :=
  match l with
  | [] => Some []
  | JString s :: rest =>
      match v_str_list rest with Some r => Some (s :: r) | None => None end
  | _ :: _ => None
  end.

Definition v_tags (o : option json) : option (list string) :=
  match o with Some (JArray l) => v_str_list l | _ => None end.

Definition v_any (o : option json) : json :=
  match o with Some v => v | None => JNull end.

(** [FlowResponse( **kvs)]: [Some flow], or [None] for a [ValidationError]. *)
Definition validate_flow (kvs : list (string * json)) : option FlowResponse :=
  let f k := dict_get k kvs in
  match v_str (f "id"), v_str (f "name"), v_str (f "folder_id"),
        v_bool (f "is_component"), v_opt_str (f "endpoint_name"),
        v_str (f "description"), v_str (f "access_type"), v_tags (f "tags"),
        v_bool (f "mcp_enabled"), v_opt_str (f "action_name"),
        v_opt_str (f "action_description") with
  | Some i, Some n, Some fo, Some ic, Some en, Some de, Some ac, Some tg,
    Some me, Some an, Some ad =>
      Some (mk_FlowResponse i n fo ic en de (v_any (f "data")) ac tg me an ad)
  | _, _, _, _, _, _, _, _, _, _, _ => None
  end.

(** [FlowResponse( **flow_data)]: [**] needs a mapping ([TypeError]
    otherwise); pydantic then raises [ValidationError] or builds the model. *)
Definition FlowResponse_new (flow_data : json) : M FlowResponse :=
  match flow_data with
  | JObject kvs =>
      match validate_flow kvs with
      | Some fl => ret fl
      | None => raise (ValidationError "validation error for FlowResponse")
      end
  | _ =>
      raise (OtherError "TypeError"
        ("FlowResponse() argument after ** must be a mapping, not " ++ type_name flow_data))
  end.

(** [class FlowExecutionRequest(BaseModel)] *)
Record FlowExecutionRequest : Type := mk_FlowExecutionRequest_raw {
  input_value : string;
  output_type : string;
  input_type : string;
  tweaks : list (string * json)
}.

(** The constructor with its defaults ([None] = argument not supplied). *)
Definition FlowExecutionRequest_new (iv : string) (ot it : option string)
    (tw : option (list (string * json))) : FlowExecutionRequest :=
  mk_FlowExecutionRequest_raw iv
    (match ot with Some s => s | None => "chat" end)
    (match it with Some s => s | None => "chat" end)
    (match tw with Some t => t | None => [] end).

(** [execution_request.model_dump()] *)
Definition model_dump (er : FlowExecutionRequest) : json :=
  JObject [("input_value", JString (input_value er));
           ("output_type", JString (output_type er));
           ("input_type", JString (input_type er));
           ("tweaks", JObject (tweaks er))].

(** [class FlowExecutionResponse(BaseModel)] *)
Record FlowExecutionResponse : Type := mk_FlowExecutionResponse {
  success : bool;
  result : json;
  error : option string
}.

(* ------------------------------------------------------------------ *)
(** ** [get_flows] *)

(** [response.json()] *)
Definition response_json (r : response) : M json :=
  match body r with
  | inl v => ret v
  | inr m => raise (OtherError "JSONDecodeError" m)
  end.

(** [for x in v]: [iter(v)] on a list, a str (its characters) or a dict
    (its keys); anything else is not iterable. *)
Definition py_iter (v : json) : M (list json) :=
  match v with
  | JArray l => ret l
  | JString s => ret (map (fun c => JString (String c "")) (list_ascii_of_string s))
  | JObject kvs => ret (map (fun kv => JString (fst kv)) kvs)
  | _ => raise (OtherError "TypeError" ("'" ++ type_name v ++ "' object is not iterable"))
  end.

Definition flows_request (svc : service) : request :=
  mk_request "GET" (urljoin (base_url svc) "/api/v1/flows/")
    [("header_flows", "true"); ("get_all", "true")] None [].

(** "Handle different response formats" *)
Definition select_flows_data (response_data : json) : M json :=
  match response_data with
  | JObject kvs =>
      match dict_get "flows" kvs with
      | Some v => ret v
      | None => raise (ServiceError "Unexpected response format: <class 'dict'>")
      end
  | JArray _ => ret response_data
  | _ => raise (ServiceError ("Unexpected response format: <class '"
                               ++ type_name response_data ++ "'>"))
  end.

(** The validation loop: [ValidationError] skips the record, any other
    exception leaves the loop. *)
Fixpoint parse_flows (items : list json) : M (list FlowResponse) :=
  match items with
  | [] => ret []
  | flow_data :: rest =>
      o <- catch (fl <- FlowResponse_new flow_data ;; ret (Some fl))
                 (fun e => match e with
                           | ValidationError _ => ret None
                           | _ => raise e
                           end) ;;
      flows <- parse_flows rest ;;
      ret (match o with Some fl => fl :: flows | None => flows end)
  end.

(** The [except Exception] clause of [get_flows]. *)
Definition get_flows_handler {A} (e : exc) : M A :=
  if is_service_error e then raise e
  else raise (ServiceError ("Failed to fetch flows: " ++ exc_str e)).

(** The [try] block of [get_flows] after the request. *)
Definition flows_of_response (resp : response) : M (list FlowResponse) :=
  response_data <- response_json resp ;;
  flows_data <- select_flows_data response_data ;;
  items <- py_iter flows_data ;;
  parse_flows items.

Definition get_flows (svc : service) (net : nat -> transport) : M (list FlowResponse) :=
  catch (response <- make_request_with_retry net (flows_request svc) 3 ;;
         flows_of_response response)
        get_flows_handler.

(* ------------------------------------------------------------------ *)
(** ** [execute_flow] *)

Definition execute_request (svc : service) (flow_id : string)
    (execution_request : FlowExecutionRequest) : request :=
  mk_request "POST" (urljoin (base_url svc) ("/api/v1/run/" ++ flow_id)) []
    (Some (model_dump execution_request))
    [("Content-Type", "application/json")].

(** The two [except] clauses of [execute_flow]. *)
Definition execute_flow_handler (e : exc) : M FlowExecutionResponse :=
  match e with
  | ServiceError m => ret (mk_FlowExecutionResponse false JNull (Some m))
  | _ => ret (mk_FlowExecutionResponse false JNull
               (Some ("Unexpected error during flow execution: " ++ exc_str e)))
  end.

(** The [try] block of [execute_flow]. *)
Definition execute_flow_try (svc : service) (net : nat -> transport) (flow_id : string)
    (execution_request : FlowExecutionRequest) : M FlowExecutionResponse :=
  response <- make_request_with_retry net
                (execute_request svc flow_id execution_request) 3 ;;
  response_data <- response_json response ;;
  ret (mk_FlowExecutionResponse true response_data None).

Definition execute_flow (svc : service) (net : nat -> transport) (flow_id : string)
    (execution_request : FlowExecutionRequest) : M FlowExecutionResponse :=
  catch (execute_flow_try svc net flow_id execution_request) execute_flow_handler.

(* ------------------------------------------------------------------ *)
(** ** Client session: [_get_client], [close], [__aenter__]/[__aexit__] *)

(** An [httpx.AsyncClient] as built by [_get_client]: an identity (each
    construction is a new object), its timeout, its connection limits and
    its [is_closed] flag. *)
Record async_client : Type := mk_client {
  client_id : nat;
  client_timeout : nat;
  max_keepalive_connections : nat;
  max_connections : nat;
  is_closed : bool
}.

(** The mutable part of a [LangflowService]: [self.timeout], [self._client],
    and the identity the next constructed client gets. *)
Record session : Type := mk_session {
  s_timeout : nat;
  s_client : option async_client;
  s_next_id : nat
}.

(** Session effects: a client constructed, [aclose()] awaited. *)
Inductive session_event : Type :=
| ClientCreated (cid : nat)
| ClientClosed (cid : nat).

Definition SM (A : Type) : Type := session -> list session_event * (A + exc) * session.

Definition sbind {A B} (m : SM A) (f : A -> SM B) : SM B :=
  fun s =>
    match m s with
    | (t, inl a, s1) => let '(t', r, s2) := f a s1 in ((t ++ t')%list, r, s2)
    | (t, inr e, s1) => (t, inr e, s1)
    end.

(** [LangflowService.__init__]: [self._client = None]. *)
Definition new_session (timeout : nat) : session := mk_session timeout None 0.

Definition create_client (s : session) : list session_event * (async_client + exc) * session :=
  let c := mk_client (s_next_id s) (s_timeout s) 5 10 false in
  ([ClientCreated (client_id c)], inl c, mk_session (s_timeout s) (Some c) (S (s_next_id s))).

(** [_get_client]: a new client when there is none or it is closed. *)
Definition get_client : SM async_client :=
  fun s =>
    match s_client s with
    | Some c => if is_closed c then create_client s else ([], inl c, s)
    | None => create_client s
    end.

(** [close]: [aclose()] only an existing, open client. *)
Definition close : SM unit :=
  fun s =>
    match s_client s with
    | Some c =>
        if is_closed c then ([], inl tt, s)
        else ([ClientClosed (client_id c)], inl tt,
              mk_session (s_timeout s)
                (Some (mk_client (client_id c) (client_timeout c)
                         (max_keepalive_connections c) (max_connections c) true))
                (s_next_id s))
    | None => ([], inl tt, s)
    end.

(** [async with service: body]: [__aenter__] returns the service, the body
    runs, [__aexit__] awaits [close()] and, returning [None], lets the
    body's exception propagate. *)
Definition with_service {A} (body : SM A) : SM A :=
  fun s =>
    let '(t1, r, s1) := body s in
    let '(t2, _, s2) := close s1 in
    ((t1 ++ t2)%list, r, s2).

(** A session body that goes through [_get_client] [n] times (once per
    [_make_request_with_retry]) and ends with [r]. *)
Fixpoint uses_client {A} (n : nat) (r : A + exc) : SM A :=
  match n with
  | 0 => fun s => ([], r, s)
  | S n' => sbind get_client (fun _ => uses_client n' r)
  end.

(* ------------------------------------------------------------------ *)
(** ** Gateway: backend/main.py *)

(** [FlowResponse.model_dump()] *)
Definition opt_str_json (o : option string) : json :=
  match o with Some s => JString s | None => JNull end.

Definition flow_dump (fl : FlowResponse) : json :=
  JObject [("id", JString (id fl)); ("name", JString (name fl));
           ("folder_id", JString (folder_id fl)); ("is_component", JBool (is_component fl));
           ("endpoint_name", opt_str_json (endpoint_name fl));
           ("description", JString (description fl)); ("data", data fl);
           ("access_type", JString (access_type fl));
           ("tags", JArray (map JString (tags fl)));
           ("mcp_enabled", JBool (mcp_enabled fl));
           ("action_name", opt_str_json (action_name fl));
           ("action_description", opt_str_json (action_description fl))].

(** [FlowExecutionResponse.model_dump()] *)
Definition response_dump (r : FlowExecutionResponse) : json :=
  JObject [("success", JBool (success r)); ("result", result r);
           ("error", opt_str_json (error r))].

(** [class ExecuteFlowRequest(BaseModel)] *)
Record ExecuteFlowRequest : Type := mk_ExecuteFlowRequest {
  req_input_value : string;
  req_tweaks : list (string * json)
}.

(** What an endpoint answers: a 200 with a JSON body, or the
    [HTTPException(status_code, detail)] it raises. *)
Inductive http_reply : Type :=
| HttpOk (b : json)
| HttpError (code : nat) (detail : string).

(** The common [try ... except LangflowServiceError ... except Exception]
    of the endpoints, around a service call whose result [k] renders. *)
Definition gateway_reply {A} (m : M A) (k : A -> json) : list event * http_reply :=
  match m with
  | (t, inl a) => (t, HttpOk (k a))
  | (t, inr (ServiceError msg)) => (t, HttpError 503 ("Langflow service error: " ++ msg))
  | (t, inr e) => (t, HttpError 500 ("Unexpected error: " ++ exc_str e))
  end.

(** The [FlowExecutionRequest] the execution endpoints build. *)
Definition endpoint_execution_request (request : ExecuteFlowRequest) : FlowExecutionRequest :=
  FlowExecutionRequest_new (req_input_value request) None None (Some (req_tweaks request)).

(** [GET /flows] *)
Definition api_get_flows (net : nat -> transport) : list event * http_reply :=
  gateway_reply (get_flows default_service net)
    (fun flows => JObject [("flows", JArray (map flow_dump flows))]).


Definition hardcoded_flow_id : string := "de90b072-14d5-4983-b9ac-85156fef9bb4".

(** [POST /test-flow] *)
Definition api_test_flow (net : nat -> transport) (request : ExecuteFlowRequest)
    : list event * http_reply :=
  gateway_reply
    (execute_flow default_service net hardcoded_flow_id (endpoint_execution_request request))
    (fun r => JObject [("flow_id", JString hardcoded_flow_id);
                       ("execution_result", response_dump r)]).

(** [GET /test-langflow] *)
Definition api_test_langflow (net : nat -> transport) : list event * http_reply :=
  gateway_reply (get_flows default_service net)
    (fun flows =>
       JObject [("status", JString "success");
                ("message", JString ("Successfully connected to Langflow. Found "
                                     ++ str_of_nat (length flows) ++ " flows."));
                ("flows_count", JInt (length flows));
                ("sample_flows",
                 JArray (map (fun fl => JObject [("id", JString (id fl));
                                                 ("name", JString (name fl))])
                             (firstn 3 flows)))]).

(* ------------------------------------------------------------------ *)
(** ** Trace shapes *)

Definition is_request (ev : event) : bool :=
  match ev with EvRequest _ => true | EvSleep _ => false end.

(** Number of [client.request] calls in a trace. *)
Definition count_requests (t : list event) : nat := length (filter is_request t).

(** [k] attempts of [rq] from index [i], each but the last followed by the
    exponential backoff sleep [2 ^ index]. *)
Fixpoint backoff_events (rq : request) (i k : nat) : list event :=
  match k with
  | 0 => []
  | S k' =>
      EvRequest rq ::
      match k' with
      | 0 => []
      | S _ => EvSleep (2 ^ i) :: backoff_events rq (S i) k'
      end
  end.

(** The transient failures of the claims: timeout, connection error, or a
    response with status in [500, 600). *)
Inductive retryable_failure : transport -> Prop :=
| rf_timeout m : retryable_failure (TimedOut m)
| rf_connect m : retryable_failure (ConnectFailed m)
| rf_server r : 500 <= status_code r < 600 -> retryable_failure (Responded r).

(** The response shapes [get_flows] accepts. *)
Definition accepted_shape (v : json) : bool :=
  match v with
  | JArray _ => true
  | JObject kvs => match dict_get "flows" kvs with Some _ => true | None => false end
  | _ => false
  end.

(** Values a Python [for] loop goes through without any iteration. *)
Definition empty_iterable (v : json) : Prop := v = JString "" \/ v = JObject [].

(* ------------------------------------------------------------------ *)
(** ** Monad and retry-loop lemmas *)

Lemma str_app_assoc (a b c : string) : (a ++ b) ++ c = a ++ b ++ c.
Proof. induction a as [|ch a IH]; cbn; [reflexivity|]. rewrite IH. reflexivity. Qed.

Lemma str_app_nil_r (a : string) : a ++ "" = a.
Proof. induction a as [|ch a IH]; cbn; [reflexivity|]. rewrite IH. reflexivity. Qed.

Lemma str_app_nonempty_l (a b : string) : a <> "" -> a ++ b <> "".
Proof. destruct a; cbn; [contradiction|discriminate]. Qed.

Lemma bind_inl {A B} (t : list event) (a : A) (f : A -> M B) :
  bind (t, inl a) f = ((t ++ fst (f a))%list, snd (f a)).
Proof. unfold bind. destruct (f a); reflexivity. Qed.

Lemma bind_ret {A B} (a : A) (f : A -> M B) : bind (ret a) f = f a.
Proof. unfold bind, ret. destruct (f a); reflexivity. Qed.

Lemma bind_inr {A B} (t : list event) (e : exc) (f : A -> M B) :
  bind (t, inr e) f = (t, inr e).
Proof. reflexivity. Qed.

Lemma catch_inr {A} (t : list event) (e : exc) (h : exc -> M A) :
  catch (t, inr e) h = ((t ++ fst (h e))%list, snd (h e)).
Proof. unfold catch. destruct (h e); reflexivity. Qed.

Lemma count_backoff rq k : forall i, count_requests (backoff_events rq i k) = k.
Proof.
  induction k as [|k IH]; intro i; [reflexivity|].
  destruct k as [|k]; [reflexivity|].
  change (S (count_requests (backoff_events rq (S i) (S k))) = S (S k)).
  rewrite IH. reflexivity.
Qed.

Lemma retryable_classify url t :
  retryable_failure t -> exists e, classify url t = Retry e.
Proof.
  intros H; inversion H as [m|m|r Hr]; subst; [eexists; reflexivity ..|].
  unfold classify.
  assert (Hs : is_success r = false)
    by (unfold is_success; apply andb_false_iff; right; apply Nat.ltb_ge; lia).
  assert (H4 : Nat.leb 400 (status_code r) && Nat.ltb (status_code r) 500 = false)
    by (apply andb_false_iff; right; apply Nat.ltb_ge; lia).
  rewrite Hs, H4. eexists; reflexivity.
Qed.

(** One loop iteration whose attempt failed retryably. *)
Lemma retry_loop_retry net rq mr attempt k last e :
  classify (rq_url rq) (net attempt) = Retry e ->
  retry_loop net rq mr attempt (S k) last =
    let rest := retry_loop net rq mr (S attempt) k (Some e) in
    if Nat.ltb attempt mr
    then ((EvRequest rq :: EvSleep (2 ^ attempt) :: fst rest)%list, snd rest)
    else ((EvRequest rq :: fst rest)%list, snd rest).
Proof.
  intros Hc. cbn [retry_loop]. unfold tell at 1. rewrite bind_inl. cbn [fst snd].
  rewrite Hc. destruct (Nat.ltb attempt mr); cbn;
  destruct (retry_loop net rq mr (S attempt) k (Some e)); reflexivity.
Qed.

Lemma retry_loop_stop net rq mr attempt k last s :
  (forall e, s <> Retry e) ->
  classify (rq_url rq) (net attempt) = s ->
  retry_loop net rq mr attempt (S k) last =
    ([EvRequest rq],
     match s with Done r => inl r | Fatal e => inr e | Retry e => inr e end).
Proof.
  intros Hs Hc. cbn [retry_loop]. unfold tell at 1. rewrite bind_inl. cbn [fst snd].
  rewrite Hc. destruct s as [r|e|e]; try reflexivity. exfalso; eapply Hs; reflexivity.
Qed.

(** Every attempt of the window fails retryably: the loop makes them all,
    with the backoff sleeps, and raises the exhaustion error. *)
Lemma retry_loop_exhausted net rq mr k :
  forall attempt last e_last,
  attempt + k = S mr -> 1 <= k ->
  (forall j, attempt <= j < attempt + k -> exists e, classify (rq_url rq) (net j) = Retry e) ->
  classify (rq_url rq) (net mr) = Retry e_last ->
  retry_loop net rq mr attempt k last =
    (backoff_events rq attempt k,
     inr (ServiceError ("Failed to make request after " ++ str_of_nat (mr + 1)
                        ++ " attempts: " ++ exc_str e_last))).
Proof.
  induction k as [|k IH]; intros attempt last e_last Hk H1 Hall Hlast; [lia|].
  destruct (Hall attempt ltac:(lia)) as [e He].
  rewrite (retry_loop_retry _ _ _ _ _ _ _ He). cbv zeta.
  destruct k as [|k].
  - assert (attempt = mr) by lia; subst attempt.
    rewrite Nat.ltb_irrefl. rewrite He in Hlast. injection Hlast as ->.
    reflexivity.
  - replace (Nat.ltb attempt mr) with true by (symmetry; apply Nat.ltb_lt; lia).
    rewrite (IH (S attempt) (Some e) e_last ltac:(lia) ltac:(lia)); [reflexivity| |exact Hlast].
    intros j Hj; apply Hall; lia.
Qed.

(** Whatever the network does, the trace is [m] attempts with the backoff
    sleeps between them, for some [1 <= m <= k]. *)
Lemma retry_loop_trace net rq mr k :
  forall attempt last, attempt + k = S mr -> 1 <= k ->
  exists m, 1 <= m <= k /\ fst (retry_loop net rq mr attempt k last) = backoff_events rq attempt m.
Proof.
  induction k as [|k IH]; intros attempt last Hk H1; [lia|].
  destruct (classify (rq_url rq) (net attempt)) as [r|e|e] eqn:Hc.
  - exists 1. split; [lia|].
    rewrite (retry_loop_stop _ _ _ _ _ _ (Done r)); [reflexivity|discriminate|exact Hc].
  - exists 1. split; [lia|].
    rewrite (retry_loop_stop _ _ _ _ _ _ (Fatal e)); [reflexivity|discriminate|exact Hc].
  - rewrite (retry_loop_retry _ _ _ _ _ _ _ Hc). cbv zeta.
    destruct k as [|k].
    + assert (attempt = mr) by lia; subst attempt. rewrite Nat.ltb_irrefl.
      exists 1. split; [lia|reflexivity].
    + replace (Nat.ltb attempt mr) with true by (symmetry; apply Nat.ltb_lt; lia).
      destruct (IH (S attempt) (Some e) ltac:(lia) ltac:(lia)) as [m [Hm Ht]].
      exists (S m). split; [lia|]. cbn [fst]. rewrite Ht.
      destruct m as [|m]; [lia|]. reflexivity.
Qed.

(* ------------------------------------------------------------------ *)
(** ** Claims about [_make_request_with_retry] *)

(** C2: when every one of the [n + 1] attempts fails with a timeout, a
    connection error or a status in [500, 600), the primitive makes exactly
    [n + 1] attempts and raises a [LangflowServiceError] whose message holds
    ["<n+1> attempts"] (["4 attempts"] for the default [n = 3]) and the text
    of the last failure. *)
Theorem make_request_with_retry_exhausted (net : nat -> transport) (rq : request) (n : nat)
  (Hfail : forall i, i <= n -> retryable_failure (net i)) :
  exists e msg,
    classify (rq_url rq) (net n) = Retry e /\
    make_request_with_retry net rq n = (backoff_events rq 0 (S n), inr (ServiceError msg)) /\
    count_requests (backoff_events rq 0 (S n)) = n + 1 /\
    str_contains msg (str_of_nat (n + 1) ++ " attempts") /\
    str_contains msg (exc_str e) /\
    (n = 3 -> str_contains msg "4 attempts").
Proof.
  destruct (retryable_classify (rq_url rq) _ (Hfail n (le_n n))) as [e He].
  exists e, ("Failed to make request after " ++ str_of_nat (n + 1) ++ " attempts: " ++ exc_str e).
  split; [exact He|]. split.
  - unfold make_request_with_retry. apply retry_loop_exhausted; try lia; [|exact He].
    intros j Hj. apply retryable_classify, Hfail. lia.
  - split; [rewrite count_backoff; lia|].
    assert (Hc : str_contains
                   ("Failed to make request after " ++ str_of_nat (n + 1) ++ " attempts: " ++ exc_str e)
                   (str_of_nat (n + 1) ++ " attempts")).
    { exists "Failed to make request after ", (": " ++ exc_str e).
      rewrite str_app_assoc. reflexivity. }
    split; [exact Hc|]. split.
    + exists ("Failed to make request after " ++ str_of_nat (n + 1) ++ " attempts: "), "".
      rewrite !str_app_assoc, str_app_nil_r. reflexivity.
    + intros ->. exact Hc.
Qed.

Lemma make_request_with_retry_exhausted_witness :
  exists e msg,
    classify (rq_url (flows_request default_service)) (TimedOut "Persistent timeout") = Retry e /\
    make_request_with_retry (fun _ => TimedOut "Persistent timeout") (flows_request default_service) 3
      = (backoff_events (flows_request default_service) 0 4, inr (ServiceError msg)) /\
    count_requests (backoff_events (flows_request default_service) 0 4) = 3 + 1 /\
    str_contains msg (str_of_nat (3 + 1) ++ " attempts") /\
    str_contains msg (exc_str e) /\
    (3 = 3 -> str_contains msg "4 attempts").
Proof.
  apply (make_request_with_retry_exhausted (fun _ => TimedOut "Persistent timeout")
           (flows_request default_service) 3).
  intros i _. constructor.
Defined.

(** Sample responses. *)
Definition ok_response : response := mk_response 200 "OK" "[]" (inl (JArray [])).
Definition not_found_response : response :=
  mk_response 404 "Not Found" "no such flow" (inr "Expecting value: line 1 column 1 (char 0)").
Definition redirect_response : response :=
  mk_response 302 "Found" "" (inr "Expecting value: line 1 column 1 (char 0)").

(** C3 (counterexample): a status error outside [500, 600) is not always
    terminal: a [302] response makes [raise_for_status] raise an
    [HTTPStatusError], which is retried since only [400 <= status < 500] is
    excluded; the call below makes two attempts. *)
Lemma make_request_with_retry_redirect_retried :
  ~ (forall (net : nat -> transport) (rq : request) (r : response),
       net 0 = Responded r -> is_success r = false -> ~ (500 <= status_code r < 600) ->
       count_requests (fst (make_request_with_retry net rq 3)) = 1).
Proof.
  intros H.
  specialize (H (fun i => if Nat.eqb i 0 then Responded redirect_response else Responded ok_response)
                (flows_request default_service) redirect_response eq_refl eq_refl).
  assert (Hr : ~ (500 <= status_code redirect_response < 600)) by (cbn; lia).
  specialize (H Hr). vm_compute in H. discriminate H.
Qed.

(** C3 (as amended): timeouts and connection errors are retried; a non-2xx
    response (an [HTTPStatusError]) is retried exactly when its status is
    outside [400, 500); a status in [400, 500) is terminal at whichever
    attempt it occurs, and on the first attempt the call ends after that one
    attempt, without sleeping, with [LangflowServiceError
    "Client error <code>: <body text>"]. *)
Theorem make_request_with_retry_classification (net : nat -> transport) (rq : request)
    (n : nat) (r : response)
    (H0 : net 0 = Responded r) (H4 : 400 <= status_code r < 500) :
  (forall url t,
     (exists e, classify url t = Retry e) <->
     (exists m, t = TimedOut m) \/ (exists m, t = ConnectFailed m) \/
     (exists r', t = Responded r' /\ is_success r' = false /\ ~ (400 <= status_code r' < 500))) /\
  (forall url r', 400 <= status_code r' < 500 ->
     classify url (Responded r') =
       Fatal (ServiceError ("Client error " ++ str_of_nat (status_code r') ++ ": " ++ text r'))) /\
  make_request_with_retry net rq n =
    ([EvRequest rq],
     inr (ServiceError ("Client error " ++ str_of_nat (status_code r) ++ ": " ++ text r))) /\
  count_requests [EvRequest rq] = 1.
Proof.
  assert (Hfatal : forall url r', 400 <= status_code r' < 500 ->
     classify url (Responded r') =
       Fatal (ServiceError ("Client error " ++ str_of_nat (status_code r') ++ ": " ++ text r'))).
  { intros url r' Hr'. unfold classify.
    assert (Hs : is_success r' = false)
      by (unfold is_success; apply andb_false_iff; right; apply Nat.ltb_ge; lia).
    assert (Hb : Nat.leb 400 (status_code r') && Nat.ltb (status_code r') 500 = true)
      by (apply andb_true_iff; split; [apply Nat.leb_le | apply Nat.ltb_lt]; lia).
    rewrite Hs, Hb. reflexivity. }
  split; [|split; [exact Hfatal|split; [|reflexivity]]].
  - intros url t. split.
    + intros [e He]. destruct t as [r'|m|m|cls m]; unfold classify in He.
      * right; right. exists r'.
        destruct (is_success r'); [discriminate He|].
        destruct (Nat.leb 400 (status_code r') && Nat.ltb (status_code r') 500) eqn:Hb;
          [discriminate He|].
        split; [reflexivity|split; [reflexivity|]].
        intros Hr'. apply andb_false_iff in Hb as [Hb|Hb];
          [apply Nat.leb_gt in Hb | apply Nat.ltb_ge in Hb]; lia.
      * left; eauto.
      * right; left; eauto.
      * discriminate He.
    + intros [[m ->]|[[m ->]|[r' [-> [Hs Hn]]]]]; unfold classify; eauto.
      rewrite Hs.
      destruct (Nat.leb 400 (status_code r') && Nat.ltb (status_code r') 500) eqn:Hb;
        [|eauto].
      exfalso. apply Hn. apply andb_true_iff in Hb as [Hb1 Hb2].
      apply Nat.leb_le in Hb1; apply Nat.ltb_lt in Hb2; lia.
  - unfold make_request_with_retry.
    rewrite (retry_loop_stop net rq n 0 n None
               (Fatal (ServiceError ("Client error " ++ str_of_nat (status_code r) ++ ": " ++ text r))));
      [reflexivity | intros e' Heq; discriminate Heq | rewrite H0; apply Hfatal; exact H4].
Qed.

Lemma make_request_with_retry_classification_witness :
  400 <= status_code not_found_response < 500 /\
  make_request_with_retry (fun _ => Responded not_found_response) (flows_request default_service) 3
    = ([EvRequest (flows_request default_service)],
       inr (ServiceError "Client error 404: no such flow")).
Proof.
  split; [cbn; lia|].
  destruct (make_request_with_retry_classification (fun _ => Responded not_found_response)
              (flows_request default_service) 3 not_found_response eq_refl ltac:(cbn; lia))
    as [_ [_ [H _]]].
  exact H.
Defined.

(** C4: whatever the network does, the trace of the primitive is [m]
    attempts ([1 <= m <= n + 1]) where attempt [i] (from 0) is followed by
    a sleep of exactly [2 ^ i] when another attempt comes, and the last
    attempt by no sleep; in particular a timeout on the first attempt and a
    success on the second give two attempts and one sleep of 1. *)
Theorem make_request_with_retry_backoff (net : nat -> transport) (rq : request) (n : nat) :
  (exists m, 1 <= m <= n + 1 /\ fst (make_request_with_retry net rq n) = backoff_events rq 0 m) /\
  (forall msg r, net 0 = TimedOut msg -> net 1 = Responded r -> is_success r = true -> 1 <= n ->
     make_request_with_retry net rq n = ([EvRequest rq; EvSleep 1; EvRequest rq], inl r) /\
     count_requests [EvRequest rq; EvSleep 1; EvRequest rq] = 2).
Proof.
  split.
  - destruct (retry_loop_trace net rq n (S n) 0 None ltac:(lia) ltac:(lia)) as [m [Hm Ht]].
    exists m. split; [lia|exact Ht].
  - intros msg r H0 H1 Hs Hn. split; [|reflexivity].
    unfold make_request_with_retry.
    rewrite (retry_loop_retry net rq n 0 n None (TimeoutError msg)) by (rewrite H0; reflexivity).
    cbv zeta.
    replace (Nat.ltb 0 n) with true by (symmetry; apply Nat.ltb_lt; lia).
    destruct n as [|n]; [lia|].
    rewrite (retry_loop_stop net rq (S n) 1 n (Some (TimeoutError msg)) (Done r));
      [reflexivity | intros e Heq; discriminate Heq | rewrite H1; cbn; rewrite Hs; reflexivity].
Qed.

Lemma make_request_with_retry_backoff_witness :
  make_request_with_retry
    (fun i => if Nat.eqb i 0 then TimedOut "Timeout" else Responded ok_response)
    (flows_request default_service) 3
  = ([EvRequest (flows_request default_service); EvSleep 1;
      EvRequest (flows_request default_service)], inl ok_response).
Proof.
  destruct (make_request_with_retry_backoff
              (fun i => if Nat.eqb i 0 then TimedOut "Timeout" else Responded ok_response)
              (flows_request default_service) 3) as [_ H].
  exact (proj1 (H "Timeout" ok_response eq_refl eq_refl eq_refl ltac:(lia))).
Defined.

(* ------------------------------------------------------------------ *)
(** ** [get_flows] lemmas *)

Lemma bind_fst_nil {A B} (m : M A) (f : A -> M B) :
  fst m = [] -> (forall a, fst (f a) = []) -> fst (bind m f) = [].
Proof.
  destruct m as [t [a|e]]; cbn; intros -> Hf; [|reflexivity].
  specialize (Hf a). destruct (f a); cbn in *; exact Hf.
Qed.

Lemma catch_fst_nil {A} (m : M A) (h : exc -> M A) :
  fst m = [] -> (forall e, fst (h e) = []) -> fst (catch m h) = [].
Proof.
  destruct m as [t [a|e]]; cbn; intros -> Hh; [reflexivity|].
  specialize (Hh e). destruct (h e); cbn in *; exact Hh.
Qed.

Lemma FlowResponse_new_trace v : fst (FlowResponse_new v) = [].
Proof. destruct v; cbn; try reflexivity. destruct (validate_flow kvs); reflexivity. Qed.

Lemma parse_flows_trace items : fst (parse_flows items) = [].
Proof.
  induction items as [|it items IH]; [reflexivity|]. cbn [parse_flows].
  apply bind_fst_nil.
  - apply catch_fst_nil.
    + apply bind_fst_nil; [apply FlowResponse_new_trace | reflexivity].
    + intros []; reflexivity.
  - intros a. apply bind_fst_nil; [exact IH | reflexivity].
Qed.

Lemma flows_of_response_trace r : fst (flows_of_response r) = [].
Proof.
  unfold flows_of_response. apply bind_fst_nil.
  - unfold response_json. destruct (body r); reflexivity.
  - intros d. apply bind_fst_nil.
    + destruct d; cbn; try reflexivity. destruct (dict_get "flows" kvs); reflexivity.
    + intros v. apply bind_fst_nil; [destruct v; reflexivity|].
      intros items. apply parse_flows_trace.
Qed.

(** Once the request primitive has returned a response, [get_flows] adds
    no effect: its result is that of the [try] block on the response. *)
Lemma get_flows_after_request svc net t r :
  make_request_with_retry net (flows_request svc) 3 = (t, inl r) ->
  get_flows svc net = (t, snd (catch (flows_of_response r) get_flows_handler)).
Proof.
  intros H. unfold get_flows. rewrite H, bind_inl.
  pose proof (flows_of_response_trace r) as Ht.
  destruct (flows_of_response r) as [tf [fl|e]]; cbn in Ht |- *; subst tf.
  - rewrite app_nil_r. reflexivity.
  - unfold get_flows_handler. destruct (is_service_error e); cbn; rewrite !app_nil_r; reflexivity.
Qed.

(** For a list of JSON objects, the validation loop keeps, in order, the
    records pydantic accepts and drops the others. *)
Lemma parse_flows_objects (kvss : list (list (string * json))) :
  parse_flows (map JObject kvss) =
    ([], inl (flat_map (fun kvs => match validate_flow kvs with
                                   | Some fl => [fl] | None => [] end) kvss)).
Proof.
  induction kvss as [|kvs kvss IH]; [reflexivity|].
  cbn [map parse_flows flat_map]. unfold FlowResponse_new.
  destruct (validate_flow kvs) as [fl|]; cbn; rewrite IH; reflexivity.
Qed.

(** A network whose first attempt returns a 200 with JSON body [d]. *)
Definition net_body (d : json) : nat -> transport :=
  fun _ => Responded (mk_response 200 "OK" "" (inl d)).


Definition sample_flow_record : json :=
  JObject [("id", JString "flow-1"); ("name", JString "Test Flow 1");
           ("folder_id", JString "folder-1"); ("is_component", JBool false);
           ("endpoint_name", JNull); ("description", JString "A test flow");
           ("data", JNull); ("access_type", JString "public");
           ("tags", JArray [JString "test"; JString "demo"]);
           ("mcp_enabled", JBool true); ("action_name", JNull);
           ("action_description", JNull)].

Lemma sample_flow_record_valid :
  exists fl, FlowResponse_new sample_flow_record = ret fl /\ id fl = "flow-1".
Proof. eexists. split; reflexivity. Qed.

(* ------------------------------------------------------------------ *)
(** ** Claims about [get_flows] *)

(** C5 (failing input): the loop only catches [ValidationError]; a list
    element that is not a JSON object (here [null] after a valid record)
    makes [FlowResponse( **flow_data)] raise [TypeError], and the whole call
    fails with ["Failed to fetch flows: ..."] instead of skipping it. *)
Theorem get_flows_non_object_record_fails :
  get_flows default_service (net_body (JArray [sample_flow_record; JNull])) =
    ([EvRequest (flows_request default_service)],
     inr (ServiceError
            "Failed to fetch flows: FlowResponse() argument after ** must be a mapping, not NoneType")).
Proof. vm_compute. reflexivity. Qed.

(** C6: a bare list [L] and the wrapper [{"flows": L}] give the same
    result of [get_flows]. *)
Theorem get_flows_wrapper_same (svc : service) (net1 net2 : nat -> transport)
    (t : list event) (r1 r2 : response) (L : list json)
    (H1 : make_request_with_retry net1 (flows_request svc) 3 = (t, inl r1))
    (H2 : make_request_with_retry net2 (flows_request svc) 3 = (t, inl r2))
    (B1 : body r1 = inl (JArray L))
    (B2 : body r2 = inl (JObject [("flows", JArray L)])) :
  get_flows svc net1 = get_flows svc net2.
Proof.
  rewrite (get_flows_after_request _ _ _ _ H1), (get_flows_after_request _ _ _ _ H2).
  unfold flows_of_response, response_json. rewrite B1, B2. reflexivity.
Qed.

Lemma get_flows_wrapper_same_witness :
  get_flows default_service (net_body (JArray [sample_flow_record; JObject []])) =
  get_flows default_service (net_body (JObject [("flows", JArray [sample_flow_record; JObject []])])).
Proof.
  apply (get_flows_wrapper_same default_service
           (net_body (JArray [sample_flow_record; JObject []]))
           (net_body (JObject [("flows", JArray [sample_flow_record; JObject []])]))
           [EvRequest (flows_request default_service)]
           (mk_response 200 "OK" "" (inl (JArray [sample_flow_record; JObject []])))
           (mk_response 200 "OK" "" (inl (JObject [("flows", JArray [sample_flow_record; JObject []])])))
           [sample_flow_record; JObject []]); reflexivity.
Defined.

(** C8: a parsed body that is neither a list nor a dict with a ["flows"]
    key makes [get_flows] raise [LangflowServiceError
    "Unexpected response format: <class '...'>"] at once: nothing else
    happens after the request. *)
Theorem get_flows_unexpected_shape (svc : service) (net : nat -> transport)
    (t : list event) (r : response) (d : json)
    (H : make_request_with_retry net (flows_request svc) 3 = (t, inl r))
    (B : body r = inl d) (Hshape : accepted_shape d = false) :
  get_flows svc net =
    (t, inr (ServiceError ("Unexpected response format: <class '" ++ type_name d ++ "'>"))).
Proof.
  rewrite (get_flows_after_request _ _ _ _ H).
  unfold flows_of_response, response_json. rewrite B.
  destruct d; cbn in Hshape |- *; try discriminate Hshape; try reflexivity.
  destruct (dict_get "flows" kvs); [discriminate Hshape|reflexivity].
Qed.

Lemma get_flows_unexpected_shape_witness :
  get_flows default_service (net_body (JObject [("items", JArray [])])) =
    ([EvRequest (flows_request default_service)],
     inr (ServiceError "Unexpected response format: <class 'dict'>")).
Proof.
  apply (get_flows_unexpected_shape default_service (net_body (JObject [("items", JArray [])]))
           [EvRequest (flows_request default_service)]
           (mk_response 200 "OK" "" (inl (JObject [("items", JArray [])])))
           (JObject [("items", JArray [])])); reflexivity.
Defined.

(** C10 (failing input): the shape check of [get_flows] tests only that the
    key ["flows"] is present, not that its value is a list.  For the bodies
    [{"flows": ""}] and [{"flows": {}}] the loop iterates over nothing, so
    [get_flows] returns no flows right after the request; it raises neither
    the unexpected-format error nor a ["Failed to fetch flows"] error. *)
Theorem get_flows_flows_empty_accepted :
  get_flows default_service (net_body (JObject [("flows", JString "")])) =
    ([EvRequest (flows_request default_service)], inl []) /\
  get_flows default_service (net_body (JObject [("flows", JObject [])])) =
    ([EvRequest (flows_request default_service)], inl []).
Proof. split; vm_compute; reflexivity. Qed.

(** For a body [{"flows": v, ...}] with [v] not a list, [get_flows] never
    raises the unexpected-format error: when [v] is [""] or [{}] it returns
    no flows; otherwise ([None], a bool, a number, a non-empty string or a
    non-empty dict) the [TypeError] of the loop is wrapped into
    [LangflowServiceError "Failed to fetch flows: ..."]. *)
Theorem get_flows_flows_not_list (svc : service) (net : nat -> transport)
    (t : list event) (r : response) (kvs : list (string * json)) (v : json)
    (H : make_request_with_retry net (flows_request svc) 3 = (t, inl r))
    (B : body r = inl (JObject kvs)) (Hv : dict_get "flows" kvs = Some v)
    (Hnl : forall l, v <> JArray l) :
  (empty_iterable v -> get_flows svc net = (t, inl [])) /\
  (~ empty_iterable v ->
     exists m, get_flows svc net = (t, inr (ServiceError ("Failed to fetch flows: " ++ m)))).
Proof.
  rewrite (get_flows_after_request _ _ _ _ H).
  assert (Hf : flows_of_response r = (items <- py_iter v ;; parse_flows items)).
  { unfold flows_of_response, response_json. rewrite B, bind_ret.
    assert (Hs : select_flows_data (JObject kvs) = ret v) by (cbn; rewrite Hv; reflexivity).
    rewrite Hs, bind_ret. reflexivity. }
  rewrite Hf. unfold empty_iterable.
  destruct v as [| b | z | z | s | l | kvs'];
    [ | | | | | exfalso; exact (Hnl l eq_refl) | ].
  1-4: split; [intros [E|E]; discriminate E | intros _; eexists; reflexivity].
  - destruct s as [|c s].
    + split; [intros _; reflexivity | intros Hn; exfalso; apply Hn; left; reflexivity].
    + split; [intros [E|E]; discriminate E | intros _; eexists; reflexivity].
  - destruct kvs' as [|[k x] kvs'].
    + split; [intros _; reflexivity | intros Hn; exfalso; apply Hn; right; reflexivity].
    + split; [intros [E|E]; discriminate E | intros _; eexists; reflexivity].
Qed.

Lemma get_flows_flows_not_list_witness :
  exists m, get_flows default_service (net_body (JObject [("flows", JInt 7)])) =
    ([EvRequest (flows_request default_service)], inr (ServiceError ("Failed to fetch flows: " ++ m))).
Proof.
  destruct (get_flows_flows_not_list default_service (net_body (JObject [("flows", JInt 7)]))
              [EvRequest (flows_request default_service)]
              (mk_response 200 "OK" "" (inl (JObject [("flows", JInt 7)])))
              [("flows", JInt 7)] (JInt 7) eq_refl eq_refl eq_refl
              (fun l E => ltac:(discriminate E))) as [_ Hne].
  apply Hne. intros [E|E]; discriminate E.
Defined.

(* ------------------------------------------------------------------ *)
(** ** [execute_flow] lemmas *)

Lemma classify_service_error_nonempty url t m :
  classify url t = Fatal (ServiceError m) -> m <> "".
Proof.
  destruct t as [r|m'|m'|cls m']; unfold classify; try discriminate.
  destruct (is_success r); [discriminate|].
  destruct (Nat.leb 400 (status_code r) && Nat.ltb (status_code r) 500); [|discriminate].
  intros E. injection E as <-. discriminate.
Qed.

(** Every [LangflowServiceError] raised by the primitive has a non-empty
    message. *)
Lemma retry_loop_service_error_nonempty net rq mr k :
  forall attempt last m,
  snd (retry_loop net rq mr attempt k last) = inr (ServiceError m) -> m <> "".
Proof.
  induction k as [|k IH]; intros attempt last m H.
  - cbn [retry_loop raise snd] in H. injection H as <-. discriminate.
  - destruct (classify (rq_url rq) (net attempt)) as [r|e|e] eqn:Hc.
    + rewrite (retry_loop_stop _ _ _ _ _ _ (Done r)) in H by (try exact Hc; discriminate).
      discriminate H.
    + rewrite (retry_loop_stop _ _ _ _ _ _ (Fatal e)) in H by (try exact Hc; discriminate).
      cbn in H. injection H as ->. eapply classify_service_error_nonempty; exact Hc.
    + rewrite (retry_loop_retry _ _ _ _ _ _ _ Hc) in H. cbv zeta in H.
      destruct (Nat.ltb attempt mr); cbn [snd] in H; eapply IH; exact H.
Qed.

Lemma execute_flow_try_service_error svc net fid er m :
  snd (execute_flow_try svc net fid er) = inr (ServiceError m) ->
  snd (make_request_with_retry net (execute_request svc fid er) 3) = inr (ServiceError m).
Proof.
  unfold execute_flow_try.
  destruct (make_request_with_retry net (execute_request svc fid er) 3) as [t [r|e]]; cbn.
  - unfold response_json. destruct (body r); cbn; discriminate.
  - intros H. injection H as ->. reflexivity.
Qed.

(** The requests [execute_flow] makes are all the one POST built by
    [execute_request], with the backoff sleeps between them. *)
Lemma execute_flow_trace svc net fid er :
  exists m, 1 <= m <= 4 /\
    fst (execute_flow svc net fid er) = backoff_events (execute_request svc fid er) 0 m.
Proof.
  destruct (make_request_with_retry_backoff net (execute_request svc fid er) 3) as [[m [Hm Ht]] _].
  exists m. split; [lia|]. rewrite <- Ht.
  unfold execute_flow, execute_flow_try.
  destruct (make_request_with_retry net (execute_request svc fid er) 3) as [t [r|e]]; cbn.
  - unfold response_json. destruct (body r); cbn; rewrite !app_nil_r; reflexivity.
  - destruct e; cbn; rewrite app_nil_r; reflexivity.
Qed.

(** The POST of [execute_flow]: method, header and the four body keys, the
    type tags defaulting to ["chat"] and the tweaks to [{}]. *)
Lemma execute_request_fields svc fid iv ot it tw :
  let rq := execute_request svc fid (FlowExecutionRequest_new iv ot it tw) in
  rq_method rq = "POST" /\
  rq_headers rq = [("Content-Type", "application/json")] /\
  rq_url rq = urljoin (base_url svc) ("/api/v1/run/" ++ fid) /\
  rq_json rq = Some (JObject [("input_value", JString iv);
                              ("output_type", JString (match ot with Some s => s | None => "chat" end));
                              ("input_type", JString (match it with Some s => s | None => "chat" end));
                              ("tweaks", JObject (match tw with Some t => t | None => [] end))]).
Proof. repeat split. Qed.

(* ------------------------------------------------------------------ *)
(** ** Claims about [execute_flow] *)

(** C1: when the [try] block of [execute_flow] fails (a
    [LangflowServiceError] from the primitive or any other exception),
    [execute_flow] still returns normally, with [success = False],
    [result = None] and a non-empty error message. *)
Theorem execute_flow_failure_reported (svc : service) (net : nat -> transport)
    (flow_id : string) (er : FlowExecutionRequest) (e : exc)
    (H : snd (execute_flow_try svc net flow_id er) = inr e) :
  exists m, snd (execute_flow svc net flow_id er) = inl (mk_FlowExecutionResponse false JNull (Some m))
            /\ m <> "".
Proof.
  unfold execute_flow. destruct (execute_flow_try svc net flow_id er) as [t res] eqn:Et.
  cbn in H. subst res. rewrite catch_inr.
  destruct e as [m|m|m|r m|m|cls m]; cbn [execute_flow_handler snd].
  1: { exists m. split; [reflexivity|].
         assert (Hm : snd (execute_flow_try svc net flow_id er) = inr (ServiceError m))
           by (rewrite Et; reflexivity).
         apply execute_flow_try_service_error in Hm.
         exact (retry_loop_service_error_nonempty _ _ _ _ _ _ _ Hm). }
  all: eexists; split; [reflexivity | apply str_app_nonempty_l; intros E; discriminate E].
Qed.

Lemma execute_flow_failure_reported_witness :
  snd (execute_flow default_service (fun _ => ConnectFailed "Connection refused") "flow-1"
         (FlowExecutionRequest_new "Test input" None None None)) =
  inl (mk_FlowExecutionResponse false JNull
         (Some "Failed to make request after 4 attempts: Connection refused")).
Proof.
  destruct (execute_flow_failure_reported default_service (fun _ => ConnectFailed "Connection refused")
              "flow-1" (FlowExecutionRequest_new "Test input" None None None)
              (ServiceError "Failed to make request after 4 attempts: Connection refused")
              ltac:(vm_compute; reflexivity)) as [m [Hm _]].
  rewrite Hm. vm_compute in Hm. injection Hm as <-. reflexivity.
Defined.

(** C7: [execute_flow] always returns a [FlowExecutionResponse]; with
    [success = True] its error is [None] and its result is the parsed JSON
    body of the response, echoed as is (a JSON [null] body included); with
    [success = False] its result is [None] and it carries an error
    message. *)
Theorem execute_flow_result_invariant (svc : service) (net : nat -> transport)
    (flow_id : string) (er : FlowExecutionRequest) :
  exists resp, snd (execute_flow svc net flow_id er) = inl resp /\
    (success resp = true ->
       error resp = None /\
       exists r, snd (make_request_with_retry net (execute_request svc flow_id er) 3) = inl r /\
                 body r = inl (result resp)) /\
    (success resp = false -> result resp = JNull /\ exists m, error resp = Some m).
Proof.
  unfold execute_flow, execute_flow_try.
  destruct (make_request_with_retry net (execute_request svc flow_id er) 3) as [t [r|e]] eqn:Er.
  - unfold response_json. rewrite bind_inl. destruct (body r) as [d|msg] eqn:Eb; cbn.
    + eexists; split; [reflexivity|]. cbn. split; [|discriminate].
      intros _. split; [reflexivity|]. exists r. split; [reflexivity|exact Eb].
    + eexists; split; [reflexivity|]. cbn. split; [discriminate|]. eauto.
  - cbn. destruct e; cbn; (eexists; split; [reflexivity|]); cbn; (split; [discriminate|eauto]).
Qed.

(** C9 (failing input): [urljoin] with the absolute path
    ["/api/v1/run/<id>"] discards the path of the configured base URL, so
    for the base ["http://example.com/langflow"] the POST goes to
    ["http://example.com/api/v1/run/abc"], not to
    ["<base>/api/v1/run/abc"]. *)
Theorem execute_flow_url_drops_base_path :
  let svc := LangflowService "http://example.com/langflow" in
  let er := FlowExecutionRequest_new "hello" None None None in
  rq_url (execute_request svc "abc" er) = "http://example.com/api/v1/run/abc" /\
  rq_url (execute_request svc "abc" er) <> base_url svc ++ "/api/v1/run/abc" /\
  (forall m, 1 <= m <= 4 ->
     In (EvRequest (execute_request svc "abc" er)) (backoff_events (execute_request svc "abc" er) 0 m)).
Proof.
  cbv zeta. split; [reflexivity|]. split; [vm_compute; discriminate|].
  intros m Hm. destruct m as [|m]; [lia|]. left. reflexivity.
Qed.

(* ------------------------------------------------------------------ *)
(** ** Further properties of [_make_request_with_retry] *)

(** Total time slept in a trace. *)
Fixpoint sleep_total (t : list event) : nat :=
  match t with
  | [] => 0
  | EvSleep n :: rest => n + sleep_total rest
  | EvRequest _ :: rest => sleep_total rest
  end.

Lemma classify_done url t r :
  classify url t = Done r -> t = Responded r /\ is_success r = true.
Proof.
  destruct t as [r'|m|m|cls m]; unfold classify; try discriminate.
  destruct (is_success r') eqn:Hs.
  - intros E; injection E as <-. auto.
  - destruct (Nat.leb 400 (status_code r') && Nat.ltb (status_code r') 500); discriminate.
Qed.

Lemma classify_fatal url t e :
  classify url t = Fatal e ->
  is_service_error e = true \/ exists cls m, e = OtherError cls m /\ t = TransportFailed cls m.
Proof.
  destruct t as [r|m|m|cls m]; unfold classify; try discriminate.
  - destruct (is_success r); [discriminate|].
    destruct (Nat.leb 400 (status_code r) && Nat.ltb (status_code r) 500); [|discriminate].
    intros E; injection E as <-. left; reflexivity.
  - intros E; injection E as <-. right; eauto.
Qed.

Lemma retry_loop_success net rq mr k :
  forall attempt last r, snd (retry_loop net rq mr attempt k last) = inl r ->
  is_success r = true /\ exists i, attempt <= i < attempt + k /\ net i = Responded r.
Proof.
  induction k as [|k IH]; intros attempt last r H; [discriminate H|].
  destruct (classify (rq_url rq) (net attempt)) as [r'|e|e] eqn:Hc.
  - rewrite (retry_loop_stop _ _ _ _ _ _ (Done r')) in H by (try exact Hc; discriminate).
    cbn in H. injection H as <-. apply classify_done in Hc as [Hn Hs].
    split; [exact Hs|]. exists attempt. split; [lia|exact Hn].
  - rewrite (retry_loop_stop _ _ _ _ _ _ (Fatal e)) in H by (try exact Hc; discriminate).
    discriminate H.
  - rewrite (retry_loop_retry _ _ _ _ _ _ _ Hc) in H. cbv zeta in H.
    assert (H' : snd (retry_loop net rq mr (S attempt) k (Some e)) = inl r)
      by (destruct (Nat.ltb attempt mr); exact H).
    destruct (IH _ _ _ H') as [Hs [i [Hi Hn]]].
    split; [exact Hs|]. exists i. split; [lia|exact Hn].
Qed.

Lemma retry_loop_error net rq mr k :
  forall attempt last e, snd (retry_loop net rq mr attempt k last) = inr e ->
  is_service_error e = true \/
  exists cls m, e = OtherError cls m /\ exists i, attempt <= i < attempt + k /\ net i = TransportFailed cls m.
Proof.
  induction k as [|k IH]; intros attempt last e H.
  - cbn [retry_loop raise snd] in H. injection H as <-. left; reflexivity.
  - destruct (classify (rq_url rq) (net attempt)) as [r'|e'|e'] eqn:Hc.
    + rewrite (retry_loop_stop _ _ _ _ _ _ (Done r')) in H by (try exact Hc; discriminate).
      discriminate H.
    + rewrite (retry_loop_stop _ _ _ _ _ _ (Fatal e')) in H by (try exact Hc; discriminate).
      cbn in H. injection H as <-.
      destruct (classify_fatal _ _ _ Hc) as [Hs|[cls [m [-> Hn]]]]; [left; exact Hs|].
      right. exists cls, m. split; [reflexivity|]. exists attempt. split; [lia|exact Hn].
    + rewrite (retry_loop_retry _ _ _ _ _ _ _ Hc) in H. cbv zeta in H.
      assert (H' : snd (retry_loop net rq mr (S attempt) k (Some e')) = inr e)
        by (destruct (Nat.ltb attempt mr); exact H).
      destruct (IH _ _ _ H') as [Hs|[cls [m [He [i [Hi Hn]]]]]]; [left; exact Hs|].
      right. exists cls, m. split; [exact He|]. exists i. split; [lia|exact Hn].
Qed.

Lemma sleep_total_backoff rq m : forall i,
  sleep_total (backoff_events rq i (S m)) + 2 ^ i = 2 ^ (i + m).
Proof.
  induction m as [|m IH]; intro i.
  - cbn. rewrite Nat.add_0_r. reflexivity.
  - change (sleep_total (backoff_events rq i (S (S m))))
      with (2 ^ i + sleep_total (backoff_events rq (S i) (S m))).
    specialize (IH (S i)). rewrite Nat.pow_succ_r' in IH.
    replace (i + S m) with (S i + m) by lia. lia.
Qed.

(** The primitive only ever returns a successful (2xx) response, one that
    [client.request] returned on one of its [n + 1] attempts. *)
Theorem make_request_with_retry_returns_success (net : nat -> transport) (rq : request)
    (n : nat) (r : response)
    (H : snd (make_request_with_retry net rq n) = inl r) :
  is_success r = true /\ exists i, i <= n /\ net i = Responded r.
Proof.
  destruct (retry_loop_success net rq n (S n) 0 None r H) as [Hs [i [Hi Hn]]].
  split; [exact Hs|]. exists i. split; [lia|exact Hn].
Qed.

Lemma make_request_with_retry_returns_success_witness :
  is_success ok_response = true /\ exists i, i <= 3 /\ Responded ok_response = Responded ok_response.
Proof.
  exact (make_request_with_retry_returns_success (fun _ => Responded ok_response)
           (flows_request default_service) 3 ok_response eq_refl).
Defined.

(** Only two kinds of exception leave the primitive: a
    [LangflowServiceError], or an exception of [client.request] other than
    a timeout or a connection error (e.g. [httpx.ReadError]), passed on
    unchanged; timeouts, connection errors and status errors never escape
    raw. *)
Theorem make_request_with_retry_raises (net : nat -> transport) (rq : request)
    (n : nat) (e : exc)
    (H : snd (make_request_with_retry net rq n) = inr e) :
  is_service_error e = true \/
  exists cls m, e = OtherError cls m /\ exists i, i <= n /\ net i = TransportFailed cls m.
Proof.
  destruct (retry_loop_error net rq n (S n) 0 None e H) as [Hs|[cls [m [He [i [Hi Hn]]]]]];
    [left; exact Hs|].
  right. exists cls, m. split; [exact He|]. exists i. split; [lia|exact Hn].
Qed.

Lemma make_request_with_retry_raises_witness :
  is_service_error (OtherError "ReadError" "connection reset") = true \/
  exists cls m, OtherError "ReadError" "connection reset" = OtherError cls m /\
    exists i, i <= 3 /\ TransportFailed "ReadError" "connection reset" = TransportFailed cls m.
Proof.
  exact (make_request_with_retry_raises (fun _ => TransportFailed "ReadError" "connection reset")
           (flows_request default_service) 3 (OtherError "ReadError" "connection reset") eq_refl).
Defined.

(** One call of the primitive makes [m + 1] attempts ([m <= n]) and sleeps
    [2^0 + ... + 2^(m-1) = 2^m - 1] time units in total, so never more
    than [2^n - 1] (7 for the default [n = 3]). *)
Theorem make_request_with_retry_total_sleep (net : nat -> transport) (rq : request) (n : nat) :
  exists m, m <= n /\
    count_requests (fst (make_request_with_retry net rq n)) = S m /\
    sleep_total (fst (make_request_with_retry net rq n)) = 2 ^ m - 1 /\
    sleep_total (fst (make_request_with_retry net rq n)) <= 2 ^ n - 1.
Proof.
  destruct (make_request_with_retry_backoff net rq n) as [[m [Hm Ht]] _].
  destruct m as [|m]; [lia|].
  exists m. rewrite Ht, count_backoff.
  pose proof (sleep_total_backoff rq m 0) as Hs. cbn [Nat.add] in Hs. cbn [Nat.pow] in Hs.
  assert (Hle : 2 ^ m <= 2 ^ n) by (apply Nat.pow_le_mono_r; lia).
  split; [lia|]. split; [reflexivity|]. lia.
Qed.

(* ------------------------------------------------------------------ *)
(** ** Further properties of [get_flows] *)

Lemma catch_get_flows_handler_error {A} (m : M A) (e : exc) :
  snd (catch m get_flows_handler) = inr e -> is_service_error e = true.
Proof.
  destruct m as [t [a|e0]]; cbn; [discriminate|].
  unfold get_flows_handler. destruct (is_service_error e0) eqn:Hs; cbn;
    intros H; injection H as <-; [exact Hs|reflexivity].
Qed.



(** For a platform list made only of JSON objects, [get_flows] returns, in
    order, exactly the records pydantic accepts, each record judged on its
    own. *)
Theorem get_flows_object_records (svc : service) (net : nat -> transport)
    (t : list event) (r : response) (kvss : list (list (string * json)))
    (H : make_request_with_retry net (flows_request svc) 3 = (t, inl r))
    (B : body r = inl (JArray (map JObject kvss))) :
  get_flows svc net =
    (t, inl (flat_map (fun kvs => match validate_flow kvs with
                                  | Some fl => [fl] | None => [] end) kvss)).
Proof.
  rewrite (get_flows_after_request _ _ _ _ H).
  unfold flows_of_response, response_json. rewrite B, bind_ret. cbn [select_flows_data].
  rewrite bind_ret. unfold py_iter. rewrite bind_ret, parse_flows_objects. reflexivity.
Qed.

Lemma get_flows_object_records_witness :
  get_flows default_service
    (net_body (JArray [sample_flow_record; JObject [("id", JString "flow-2")]])) =
  ([EvRequest (flows_request default_service)],
   inl (flat_map (fun kvs => match validate_flow kvs with Some fl => [fl] | None => [] end)
          [match sample_flow_record with JObject kvs => kvs | _ => [] end;
           [("id", JString "flow-2")]])).
Proof.
  apply (get_flows_object_records default_service
           (net_body (JArray [sample_flow_record; JObject [("id", JString "flow-2")]]))
           [EvRequest (flows_request default_service)]
           (mk_response 200 "OK" "" (inl (JArray [sample_flow_record; JObject [("id", JString "flow-2")]])))
           [match sample_flow_record with JObject kvs => kvs | _ => [] end;
            [("id", JString "flow-2")]]); reflexivity.
Defined.

Lemma v_str_list_map (l : list string) : v_str_list (map JString l) = Some l.
Proof. induction l as [|s l IH]; cbn; [reflexivity|]. rewrite IH. reflexivity. Qed.

(** [FlowResponse( **flow.model_dump())] gives the flow back. *)
Lemma FlowResponse_new_dump (fl : FlowResponse) : FlowResponse_new (flow_dump fl) = ret fl.
Proof.
  destruct fl as [i n fo ic en de da ac tg me an ad].
  unfold flow_dump, FlowResponse_new, validate_flow. cbn [dict_get String.eqb Ascii.eqb Bool.eqb
    id name folder_id is_component endpoint_name description data access_type tags mcp_enabled
    action_name action_description].
  cbn [v_str v_bool v_tags v_any]. rewrite v_str_list_map.
  destruct en, an, ad; reflexivity.
Qed.

Lemma parse_flows_dump (fls : list FlowResponse) :
  parse_flows (map flow_dump fls) = ([], inl fls).
Proof.
  induction fls as [|fl fls IH]; [reflexivity|].
  cbn [map parse_flows]. rewrite FlowResponse_new_dump, bind_ret.
  change (catch (ret (Some fl)) ?h) with (ret (Some fl)).
  rewrite bind_ret, IH. reflexivity.
Qed.

(** Round trip: a platform body of the shape [GET /flows] answers,
    [{"flows": [flow.model_dump() for flow in flows]}], is read back by
    [get_flows] as exactly [flows]. *)
Theorem get_flows_dump_roundtrip (svc : service) (net : nat -> transport)
    (t : list event) (r : response) (fls : list FlowResponse)
    (H : make_request_with_retry net (flows_request svc) 3 = (t, inl r))
    (B : body r = inl (JObject [("flows", JArray (map flow_dump fls))])) :
  get_flows svc net = (t, inl fls).
Proof.
  rewrite (get_flows_after_request _ _ _ _ H).
  unfold flows_of_response, response_json. rewrite B, bind_ret.
  change (select_flows_data (JObject [("flows", JArray (map flow_dump fls))]))
    with (ret (JArray (map flow_dump fls))).
  rewrite bind_ret. unfold py_iter. rewrite bind_ret, parse_flows_dump. reflexivity.
Qed.

Definition sample_flow : FlowResponse :=
  mk_FlowResponse "flow-2" "Test Flow 2" "folder-1" true (Some "test_endpoint")
    "Another test flow" (JObject [("some", JString "data")]) "private" ["test"] false
    (Some "test_action") (Some "Test action description").

Lemma get_flows_dump_roundtrip_witness :
  get_flows default_service (net_body (JObject [("flows", JArray (map flow_dump [sample_flow]))])) =
    ([EvRequest (flows_request default_service)], inl [sample_flow]).
Proof.
  apply (get_flows_dump_roundtrip default_service
           (net_body (JObject [("flows", JArray (map flow_dump [sample_flow]))]))
           [EvRequest (flows_request default_service)]
           (mk_response 200 "OK" "" (inl (JObject [("flows", JArray (map flow_dump [sample_flow]))])))
           [sample_flow]); reflexivity.
Defined.

(* ------------------------------------------------------------------ *)
(** ** Base URL and request URLs *)

Lemma list_ascii_app (a b : string) :
  list_ascii_of_string (a ++ b) = (list_ascii_of_string a ++ list_ascii_of_string b)%list.
Proof. induction a as [|c a IH]; cbn; [reflexivity|]. rewrite IH. reflexivity. Qed.

(** A trailing ['/'] of the configured base URL makes no difference:
    [LangflowService(b + '/')] and [LangflowService(b)] hold the same base
    URL, hence send the same requests. *)
Theorem LangflowService_trailing_slash (b : string) :
  LangflowService (b ++ "/") = LangflowService b.
Proof.
  unfold LangflowService, rstrip_slash. rewrite list_ascii_app, rev_app_distr. reflexivity.
Qed.

Lemma rstrip_slash_no_trailing (pre l : list ascii) :
  l <> [] -> ~ In "/"%char l ->
  rstrip_slash (string_of_list_ascii (pre ++ l)) = string_of_list_ascii (pre ++ l).
Proof.
  intros Hne Hn. unfold rstrip_slash. rewrite list_ascii_of_string_of_list_ascii.
  rewrite rev_app_distr.
  destruct (rev l) as [|c rl] eqn:E.
  - exfalso. apply Hne. rewrite <- (rev_involutive l), E. reflexivity.
  - assert (Hc : In c l) by (apply in_rev; rewrite E; left; reflexivity).
    cbn [app drop_slashes].
    replace (Ascii.eqb c "/"%char) with false
      by (symmetry; apply Ascii.eqb_neq; intros ->; exact (Hn Hc)).
    rewrite app_comm_cons, <- E, <- rev_app_distr, rev_involutive. reflexivity.
Qed.

Lemma remove_unsafe_app a b : remove_unsafe (a ++ b) = remove_unsafe a ++ remove_unsafe b.
Proof.
  unfold remove_unsafe. rewrite list_ascii_app, filter_app.
  induction (filter _ (list_ascii_of_string a)) as [|c l IH]; cbn; [reflexivity|]. rewrite IH; reflexivity.
Qed.

Lemma remove_unsafe_id s :
  forallb (fun c => negb (url_unsafe c)) (list_ascii_of_string s) = true -> remove_unsafe s = s.
Proof.
  unfold remove_unsafe. induction s as [|c s IH]; cbn; [reflexivity|].
  intros H. apply andb_true_iff in H as [H1 H2]. rewrite H1. cbn. rewrite IH by exact H2. reflexivity.
Qed.

Lemma forallb_notin (p : ascii -> bool) c l : forallb p l = true -> p c = false -> ~ In c l.
Proof. intros H Hc Hi. rewrite forallb_forall in H. rewrite (H c Hi) in Hc. discriminate. Qed.

Lemma break_at_absent (c : ascii) (s : string) :
  ~ In c (list_ascii_of_string s) -> break_at c s = None.
Proof.
  induction s as [|c' s IH]; cbn; intros Hn; [reflexivity|].
  replace (Ascii.eqb c c') with false
    by (symmetry; apply Ascii.eqb_neq; intros ->; apply Hn; left; reflexivity).
  rewrite IH; [reflexivity|]. intros Hi; apply Hn; right; exact Hi.
Qed.

Lemma break_at_first (c : ascii) (a b : string) :
  ~ In c (list_ascii_of_string a) -> break_at c (a ++ String c b) = Some (a, b).
Proof.
  induction a as [|c' a IH]; cbn; intros Hn.
  - rewrite Ascii.eqb_refl. reflexivity.
  - replace (Ascii.eqb c c') with false
      by (symmetry; apply Ascii.eqb_neq; intros ->; apply Hn; left; reflexivity).
    rewrite IH; [reflexivity|]. intros Hi; apply Hn; right; exact Hi.
Qed.

Lemma str_has_absent c s : ~ In c (list_ascii_of_string s) -> str_has c s = false.
Proof.
  unfold str_has. intros Hn. apply not_true_iff_false. intros H.
  apply existsb_exists in H as [x [Hx Hq]]. apply Ascii.eqb_eq in Hq. subst x. exact (Hn Hx).
Qed.

Lemma split_netloc_id s :
  forallb netloc_char (list_ascii_of_string s) = true -> split_netloc s = (s, "").
Proof.
  induction s as [|c s IH]; cbn; [reflexivity|].
  intros H. apply andb_true_iff in H as [H1 H2].
  unfold netloc_char, str_has in H1. cbn in H1.
  destruct (Ascii.eqb c "/"%char), (Ascii.eqb c "?"%char), (Ascii.eqb c "#"%char);
    cbn in H1 |- *; rewrite ?andb_false_r in H1; try discriminate H1.
  rewrite IH by exact H2. reflexivity.
Qed.

Lemma forallb_weaken (p q : ascii -> bool) l :
  (forall c, p c = true -> q c = true) -> forallb p l = true -> forallb q l = true.
Proof. intros Hpq H. rewrite forallb_forall in H |- *. intros c Hc. apply Hpq, H, Hc. Qed.

Lemma netloc_char_safe c : netloc_char c = true -> negb (url_unsafe c) = true.
Proof. unfold netloc_char. intros H. apply andb_true_iff in H as [_ H]. exact H. Qed.

Lemma path_char_safe c : path_char c = true -> negb (url_unsafe c) = true.
Proof. unfold path_char. intros H. apply andb_true_iff in H as [_ H]. exact H. Qed.

Lemma path_char_not (c d : ascii) : In d (list_ascii_of_string "?#;") -> path_char c = true -> c <> d.
Proof.
  intros Hd H ->. unfold path_char in H. apply andb_true_iff in H as [H _].
  unfold str_has in H. apply negb_true_iff in H. apply not_true_iff_false in H. apply H.
  apply existsb_exists. exists d. split; [exact Hd|apply Ascii.eqb_refl].
Qed.

Lemma forallb_path_notin (d : ascii) (s : string) :
  In d (list_ascii_of_string "?#;") -> forallb path_char (list_ascii_of_string s) = true ->
  ~ In d (list_ascii_of_string s).
Proof.
  intros Hd H Hi. rewrite forallb_forall in H. exact (path_char_not d d Hd (H d Hi) eq_refl).
Qed.

Lemma break_at_app_absent (c : ascii) (a b : string) :
  ~ In c (list_ascii_of_string a) ->
  break_at c (a ++ b) = match break_at c b with
                        | Some (pre, post) => Some (a ++ pre, post)
                        | None => None
                        end.
Proof.
  induction a as [|c' a IH]; cbn; intros Hn.
  - destruct (break_at c b) as [[]|]; reflexivity.
  - replace (Ascii.eqb c c') with false
      by (symmetry; apply Ascii.eqb_neq; intros ->; apply Hn; left; reflexivity).
    rewrite IH by (intros Hi; apply Hn; right; exact Hi).
    destruct (break_at c b) as [[]|]; reflexivity.
Qed.

Ltac plain_base_case sch netloc Hu Hn :=
  change (lstrip_by c0_or_space (sch ++ "://" ++ netloc)) with (sch ++ "://" ++ netloc);
  change (sch ++ "://" ++ netloc) with ((sch ++ "://") ++ netloc);
  rewrite remove_unsafe_app, (remove_unsafe_id netloc Hu);
  change (remove_unsafe (sch ++ "://")) with (sch ++ "://");
  change (remove_unsafe (strip_by c0_or_space "")) with "";
  change ((sch ++ "://") ++ netloc) with (sch ++ String ":" ("//" ++ netloc));
  rewrite break_at_first by (cbn; intuition discriminate);
  cbv beta iota zeta;
  change ((nat_of_ascii "h" <? 128)%nat && ascii_alpha "h" &&
          forallb scheme_char (list_ascii_of_string sch)) with true;
  change (str_lower sch) with sch;
  change ("//" ++ netloc) with (String "/" (String "/" netloc));
  cbv beta iota zeta; rewrite (split_netloc_id netloc Hn);
  reflexivity.

Lemma urlparse_plain_base (scheme netloc : string)
    (Hs : scheme = "http" \/ scheme = "https")
    (Hn : forallb netloc_char (list_ascii_of_string netloc) = true) :
  urlparse (scheme ++ "://" ++ netloc) "" = (scheme, netloc, "", "", "", "").
Proof.
  assert (Hu := forallb_weaken _ _ _ netloc_char_safe Hn).
  destruct Hs as [-> | ->]; unfold urlparse, urlsplit.
  - plain_base_case "http" netloc Hu Hn.
  - plain_base_case "https" netloc Hu Hn.
Qed.

Lemma urlparse_api_path (scheme tail : string)
    (Hs : scheme = "http" \/ scheme = "https")
    (Ht : forallb path_char (list_ascii_of_string tail) = true) :
  urlparse ("/api/v1/" ++ tail) scheme = (scheme, "", "/api/v1/" ++ tail, "", "", "").
Proof.
  assert (Hu := forallb_weaken _ _ _ path_char_safe Ht).
  assert (Hsch : remove_unsafe (strip_by c0_or_space scheme) = scheme)
    by (destruct Hs as [-> | ->]; reflexivity).
  assert (Hnone : forall d, In d (list_ascii_of_string "?#;") ->
            break_at d ("/api/v1/" ++ tail) = None).
  { intros d Hd. rewrite break_at_app_absent.
    - rewrite break_at_absent; [reflexivity|]. exact (forallb_path_notin d tail Hd Ht).
    - cbn in Hd |- *. intuition (subst; discriminate). }
  unfold urlparse, urlsplit.
  change (lstrip_by c0_or_space ("/api/v1/" ++ tail)) with ("/api/v1/" ++ tail).
  rewrite remove_unsafe_app, (remove_unsafe_id tail Hu), Hsch.
  change (remove_unsafe "/api/v1/") with "/api/v1/".
  rewrite break_at_app_absent by (cbn; intuition discriminate).
  destruct (break_at ":"%char tail) as [[a b]|]; cbv beta iota zeta.
  all: change ("/api/v1/" ++ ?x) with (String "/" (String "a" ("pi/v1/" ++ x))); cbv beta iota zeta.
  all: rewrite ?(fun z => eq_refl : (nat_of_ascii "/" <? 128)%nat && ascii_alpha "/" && z = false).
  all: cbv beta iota zeta.
  all: change (String "/" (String "a" ("pi/v1/" ++ tail))) with ("/api/v1/" ++ tail).
  all: unfold split_once; rewrite (Hnone "#"%char) by (cbn; intuition); cbv beta iota zeta.
  all: rewrite (Hnone "?"%char) by (cbn; intuition); cbv beta iota zeta.
  all: rewrite (str_has_absent ";"%char) by (apply forallb_path_notin; [cbn; intuition|]; 
         rewrite list_ascii_app, forallb_app; apply andb_true_iff; split; [reflexivity|exact Ht]).
  all: rewrite andb_false_r; reflexivity.
Qed.

Lemma split_slash_aux_absent (s cur : string) :
  ~ In "/"%char (list_ascii_of_string s) -> split_slash_aux s cur = [cur ++ s].
Proof.
  revert cur. induction s as [|c s IH]; intros cur Hn; cbn.
  - rewrite str_app_nil_r. reflexivity.
  - replace (Ascii.eqb c "/"%char) with false
      by (symmetry; apply Ascii.eqb_neq; intros ->; apply Hn; left; reflexivity).
    rewrite IH by (intros Hi; apply Hn; right; exact Hi).
    rewrite str_app_assoc. reflexivity.
Qed.

Lemma segment_char_path c : segment_char c = true -> path_char c = true.
Proof.
  unfold segment_char, path_char, str_has. cbn.
  destruct (Ascii.eqb c "/"%char), (Ascii.eqb c "?"%char), (Ascii.eqb c "#"%char),
           (Ascii.eqb c ";"%char), (url_unsafe c); cbn; intros H; try reflexivity; discriminate H.
Qed.

Lemma segment_no_slash s :
  forallb segment_char (list_ascii_of_string s) = true -> ~ In "/"%char (list_ascii_of_string s).
Proof.
  intros H Hi. rewrite forallb_forall in H. specialize (H _ Hi). discriminate H.
Qed.

Lemma urljoin_plain_run (scheme netloc fid : string)
    (Hs : scheme = "http" \/ scheme = "https") (Hne : netloc <> "")
    (Hn : forallb netloc_char (list_ascii_of_string netloc) = true)
    (Hf : forallb segment_char (list_ascii_of_string fid) = true)
    (Hd1 : fid <> ".") (Hd2 : fid <> "..") :
  urljoin (scheme ++ "://" ++ netloc) ("/api/v1/run/" ++ fid) =
    scheme ++ "://" ++ netloc ++ "/api/v1/run/" ++ fid.
Proof.
  assert (Ht : forallb path_char (list_ascii_of_string ("run/" ++ fid)) = true).
  { rewrite list_ascii_app, forallb_app. apply andb_true_iff. split; [reflexivity|].
    exact (forallb_weaken _ _ _ segment_char_path Hf). }
  assert (Hrel : str_mem scheme uses_relative = true) by (destruct Hs as [-> | ->]; reflexivity).
  assert (Hnet : str_mem scheme uses_netloc = true) by (destruct Hs as [-> | ->]; reflexivity).
  assert (Hsch : String.eqb scheme "" = false) by (destruct Hs as [-> | ->]; reflexivity).
  assert (Hnl : String.eqb netloc "" = false) by (apply String.eqb_neq; exact Hne).
  unfold urljoin.
  replace (String.eqb (scheme ++ "://" ++ netloc) "") with false
    by (destruct Hs as [-> | ->]; reflexivity).
  change (String.eqb ("/api/v1/run/" ++ fid) "") with false. cbv beta iota.
  rewrite (urlparse_plain_base scheme netloc Hs Hn). cbv beta iota zeta.
  change ("/api/v1/run/" ++ fid) with ("/api/v1/" ++ ("run/" ++ fid)).
  rewrite (urlparse_api_path scheme _ Hs Ht). cbv beta iota zeta.
  rewrite String.eqb_refl, Hrel, Hnet. cbn [negb orb andb String.eqb].
  change ("/api/v1/" ++ ("run/" ++ fid)) with (String "/" ("api/v1/run/" ++ fid)).
  cbv beta iota.
  change (split_slash (String "/" ("api/v1/run/" ++ fid)))
    with ("" :: "api" :: "v1" :: "run" :: split_slash_aux fid "").
  rewrite (split_slash_aux_absent _ _ (segment_no_slash _ Hf)). cbn [append last].
  apply String.eqb_neq in Hd1, Hd2.
  assert (Hm : str_mem fid ["."; ".."] = false) by (unfold str_mem; cbn; rewrite Hd1, Hd2; reflexivity).
  rewrite Hm.
  cbn [resolve_segments String.eqb Ascii.eqb Bool.eqb]. rewrite Hd2, Hd1.
  cbn [rev app join_slash append].
  unfold urlunparse, urlunsplit. rewrite Hnl, Hsch. cbn [negb orb andb String.eqb].
  reflexivity.
Qed.

Lemma urljoin_plain_flows (scheme netloc : string)
    (Hs : scheme = "http" \/ scheme = "https") (Hne : netloc <> "")
    (Hn : forallb netloc_char (list_ascii_of_string netloc) = true) :
  urljoin (scheme ++ "://" ++ netloc) "/api/v1/flows/" = scheme ++ "://" ++ netloc ++ "/api/v1/flows/".
Proof.
  assert (Hrel : str_mem scheme uses_relative = true) by (destruct Hs as [-> | ->]; reflexivity).
  assert (Hnet : str_mem scheme uses_netloc = true) by (destruct Hs as [-> | ->]; reflexivity).
  assert (Hsch : String.eqb scheme "" = false) by (destruct Hs as [-> | ->]; reflexivity).
  assert (Hnl : String.eqb netloc "" = false) by (apply String.eqb_neq; exact Hne).
  unfold urljoin.
  replace (String.eqb (scheme ++ "://" ++ netloc) "") with false
    by (destruct Hs as [-> | ->]; reflexivity).
  cbv beta iota.
  rewrite (urlparse_plain_base scheme netloc Hs Hn). cbv beta iota zeta.
  change "/api/v1/flows/" with ("/api/v1/" ++ "flows/").
  rewrite (urlparse_api_path scheme "flows/" Hs eq_refl). cbv beta iota zeta.
  rewrite String.eqb_refl, Hrel, Hnet.
  unfold urlunparse, urlunsplit. rewrite Hnl, Hsch. reflexivity.
Qed.

Lemma netloc_no_slash s :
  forallb netloc_char (list_ascii_of_string s) = true -> ~ In "/"%char (list_ascii_of_string s).
Proof. intros H Hi. rewrite forallb_forall in H. specialize (H _ Hi). discriminate H. Qed.

Lemma plain_base_url (scheme netloc : string)
    (Hs : scheme = "http" \/ scheme = "https") (Hne : netloc <> "")
    (Hn : forallb netloc_char (list_ascii_of_string netloc) = true) :
  base_url (LangflowService (scheme ++ "://" ++ netloc)) = scheme ++ "://" ++ netloc.
Proof.
  cbn [base_url LangflowService].
  rewrite <- (string_of_list_ascii_of_string (scheme ++ "://" ++ netloc)).
  rewrite list_ascii_app, (list_ascii_app "://" netloc).
  rewrite app_assoc. apply rstrip_slash_no_trailing; [|exact (netloc_no_slash _ Hn)].
  intros E. apply Hne. destruct netloc; [reflexivity|discriminate E].
Qed.

Lemma plain_base_urls (scheme netloc flow_id : string) (er : FlowExecutionRequest)
    (Hs : scheme = "http" \/ scheme = "https") (Hne : netloc <> "")
    (Hn : forallb netloc_char (list_ascii_of_string netloc) = true)
    (Hf : forallb segment_char (list_ascii_of_string flow_id) = true)
    (Hd1 : flow_id <> ".") (Hd2 : flow_id <> "..") :
  let svc := LangflowService (scheme ++ "://" ++ netloc) in
  rq_url (execute_request svc flow_id er) = scheme ++ "://" ++ netloc ++ "/api/v1/run/" ++ flow_id /\
  rq_url (flows_request svc) = scheme ++ "://" ++ netloc ++ "/api/v1/flows/".
Proof.
  cbv zeta. unfold execute_request, flows_request. cbn [rq_url].
  rewrite (plain_base_url scheme netloc Hs Hne Hn).
  split; [apply urljoin_plain_run | apply urljoin_plain_flows]; assumption.
Qed.

(** For a base [http://netloc] or [https://netloc] (no path, no trailing
    ['/']) whose netloc is plain ASCII text without ['/'], ['?'], ['#'],
    brackets, tab, CR or LF, and a flow id that is one path segment without
    ['?'], ['#'], [';'], tab, CR or LF and is not ["."] or [".."], the two
    request URLs are the base followed by the endpoint path:
    [<base>/api/v1/run/<flow_id>] and [<base>/api/v1/flows/]. *)
Theorem request_urls_plain_base (scheme netloc flow_id : string) (er : FlowExecutionRequest)
    (Hs : scheme = "http" \/ scheme = "https") (Hne : netloc <> "")
    (Hn : forallb netloc_char (list_ascii_of_string netloc) = true)
    (Hf : forallb segment_char (list_ascii_of_string flow_id) = true)
    (Hd1 : flow_id <> ".") (Hd2 : flow_id <> "..") :
  let svc := LangflowService (scheme ++ "://" ++ netloc) in
  rq_url (execute_request svc flow_id er) = scheme ++ "://" ++ netloc ++ "/api/v1/run/" ++ flow_id /\
  rq_url (flows_request svc) = scheme ++ "://" ++ netloc ++ "/api/v1/flows/".
Proof. exact (plain_base_urls scheme netloc flow_id er Hs Hne Hn Hf Hd1 Hd2). Qed.

Lemma request_urls_plain_base_witness :
  rq_url (execute_request default_service "flow-1" (FlowExecutionRequest_new "hi" None None None))
    = "http://localhost:7860/api/v1/run/flow-1" /\
  rq_url (flows_request default_service) = "http://localhost:7860/api/v1/flows/".
Proof.
  apply (request_urls_plain_base "http" "localhost:7860" "flow-1"
           (FlowExecutionRequest_new "hi" None None None)).
  all: first [ left; reflexivity | reflexivity | intros E; discriminate E ].
Defined.

(* ------------------------------------------------------------------ *)
(** ** Client session *)

Lemma uses_client_open {A} (n : nat) (r : A + exc) (s : session) (c : async_client) :
  s_client s = Some c -> is_closed c = false -> uses_client n r s = ([], r, s).
Proof.
  intros Hs Hc. induction n as [|n IH]; [reflexivity|].
  cbn [uses_client]. unfold sbind, get_client. rewrite Hs, Hc. rewrite IH. reflexivity.
Qed.

(** [async with LangflowService() as service:] around a body that makes
    [n] requests: with no request no client is ever built; otherwise exactly
    one client (the first one, id 0) is built, shared by all the requests,
    and closed on exit.  The body's outcome, a value or an exception, is
    what the [async with] statement yields. *)
Theorem with_service_single_client {A} (n timeout : nat) (r : A + exc) :
  with_service (uses_client n r) (new_session timeout) =
    match n with
    | 0 => ([], r, new_session timeout)
    | S _ => ([ClientCreated 0; ClientClosed 0], r,
              mk_session timeout (Some (mk_client 0 timeout 5 10 true)) 1)
    end.
Proof.
  destruct n as [|n]; [reflexivity|].
  assert (E : uses_client n r (mk_session timeout (Some (mk_client 0 timeout 5 10 false)) 1)
              = ([], r, mk_session timeout (Some (mk_client 0 timeout 5 10 false)) 1))
    by (apply (uses_client_open n r _ (mk_client 0 timeout 5 10 false)); reflexivity).
  unfold with_service. cbn [uses_client]. unfold sbind, get_client, create_client.
  cbn -[uses_client]. rewrite E.
  reflexivity.
Qed.

(** What [_get_client] and [close] keep true of [self._client]: its
    identity is below the next one, it has the service's timeout and the
    limits [max_keepalive_connections=5], [max_connections=10]. *)
Definition session_wf (s : session) : Prop :=
  forall c, s_client s = Some c ->
    client_id c < s_next_id s /\ client_timeout c = s_timeout s /\
    max_keepalive_connections c = 5 /\ max_connections c = 10.

Lemma new_session_wf (timeout : nat) : session_wf (new_session timeout).
Proof. intros c H; discriminate H. Qed.

Lemma create_client_wf s : session_wf (snd (create_client s)).
Proof. intros c H; cbn in H; injection H as <-; cbn; lia. Qed.

Lemma get_client_wf s : session_wf s -> session_wf (snd (get_client s)).
Proof.
  intros Hw. unfold get_client. destruct (s_client s) as [c|] eqn:Hs.
  - destruct (is_closed c); [apply create_client_wf | exact Hw].
  - apply create_client_wf.
Qed.

Lemma close_wf s : session_wf s -> session_wf (snd (close s)).
Proof.
  intros Hw. unfold close. destruct (s_client s) as [c|] eqn:Hs; [|exact Hw].
  destruct (is_closed c); [exact Hw|].
  intros c' H; cbn in H; injection H as <-; cbn. exact (Hw c Hs).
Qed.

(** [_get_client] on a consistent session (for instance a new one) hands
    out an open client with the service's timeout and the limits
    [max_keepalive_connections=5], [max_connections=10]: the held one if it is
    open, untouched, or else a newly built one with the next identity.  A
    second call returns the very same client and builds nothing. *)
Theorem get_client_reuse (s : session) (Hw : session_wf s) :
  exists t c s1,
    get_client s = (t, inl c, s1) /\
    is_closed c = false /\ client_timeout c = s_timeout s /\
    max_keepalive_connections c = 5 /\ max_connections c = 10 /\
    ((t = [] /\ s1 = s) \/ (t = [ClientCreated (client_id c)] /\ client_id c = s_next_id s)) /\
    get_client s1 = ([], inl c, s1).
Proof.
  unfold get_client at 1. destruct (s_client s) as [c0|] eqn:Hs; [destruct (is_closed c0) eqn:Hc|].
  2: { destruct (Hw c0 Hs) as (_ & Ht & Hk & Hm).
       exists [], c0, s. repeat split; try assumption; [left; split; reflexivity|].
       unfold get_client. rewrite Hs, Hc. reflexivity. }
  all: eexists _, _, _; split; [reflexivity|]; cbn; repeat split; [right; split; reflexivity].
Qed.

Lemma get_client_reuse_witness :
  session_wf (new_session 30) /\
  exists t c s1,
    get_client (new_session 30) = (t, inl c, s1) /\
    is_closed c = false /\ client_timeout c = s_timeout (new_session 30) /\
    max_keepalive_connections c = 5 /\ max_connections c = 10 /\
    ((t = [] /\ s1 = new_session 30) \/
     (t = [ClientCreated (client_id c)] /\ client_id c = s_next_id (new_session 30))) /\
    get_client s1 = ([], inl c, s1).
Proof.
  split; [apply new_session_wf|]. apply (get_client_reuse (new_session 30)). apply new_session_wf.
Defined.

(** [close()] twice is [close()] once: the second call awaits nothing and
    changes nothing. *)
Theorem close_idempotent (s : session) :
  close (snd (close s)) = ([], inl tt, snd (close s)).
Proof.
  unfold close. destruct (s_client s) as [c|] eqn:Hs; [destruct (is_closed c) eqn:Hc|];
    cbn; rewrite ?Hs, ?Hc; reflexivity.
Qed.

(** After [close()], the next [_get_client] builds a new client, distinct
    from every client built before, instead of reusing the closed one; the
    [aclose()] is awaited only if the held client was open. *)
Theorem get_client_after_close (s : session) (c : async_client)
    (Hw : session_wf s) (Hs : s_client s = Some c) :
  exists t1 s1 c' s2,
    close s = (t1, inl tt, s1) /\
    t1 = (if is_closed c then [] else [ClientClosed (client_id c)]) /\
    get_client s1 = ([ClientCreated (client_id c')], inl c', s2) /\
    client_id c' = s_next_id s /\ client_id c' <> client_id c /\
    is_closed c' = false /\ s_client s2 = Some c'.
Proof.
  destruct (Hw c Hs) as (Hlt & _).
  unfold close. rewrite Hs. destruct (is_closed c) eqn:Hc.
  - eexists _, _, _, _. split; [reflexivity|]. split; [reflexivity|].
    split; [unfold get_client; rewrite Hs, Hc; reflexivity|]. cbn. repeat split; lia.
  - eexists _, _, _, _. split; [reflexivity|]. split; [reflexivity|].
    split; [unfold get_client; reflexivity|]. cbn. repeat split; lia.
Qed.

Lemma get_client_after_close_witness :
  let s := mk_session 30 (Some (mk_client 0 30 5 10 false)) 1 in
  session_wf s /\ s_client s = Some (mk_client 0 30 5 10 false) /\
  exists t1 s1 c' s2,
    close s = (t1, inl tt, s1) /\
    t1 = (if is_closed (mk_client 0 30 5 10 false) then []
          else [ClientClosed (client_id (mk_client 0 30 5 10 false))]) /\
    get_client s1 = ([ClientCreated (client_id c')], inl c', s2) /\
    client_id c' = s_next_id s /\ client_id c' <> client_id (mk_client 0 30 5 10 false) /\
    is_closed c' = false /\ s_client s2 = Some c'.
Proof.
  cbv zeta.
  assert (Hw : session_wf (mk_session 30 (Some (mk_client 0 30 5 10 false)) 1)).
  { intros c H; cbn in H; injection H as <-; cbn; repeat split; lia. }
  split; [exact Hw|]. split; [reflexivity|].
  apply (get_client_after_close _ _ Hw). reflexivity.
Defined.

(* ------------------------------------------------------------------ *)
(** ** Gateway endpoints *)

Lemma service_error_inv (e : exc) : is_service_error e = true -> exists m, e = ServiceError m.
Proof. destruct e; cbn; intros H; try discriminate H; eauto. Qed.

Lemma execute_flow_returns svc net fid er :
  exists resp, snd (execute_flow svc net fid er) = inl resp.
Proof.
  unfold execute_flow, execute_flow_try.
  destruct (make_request_with_retry net (execute_request svc fid er) 3) as [t [r|e]].
  - unfold response_json. rewrite bind_inl. destruct (body r); cbn; eauto.
  - cbn. destruct e; cbn; eauto.
Qed.

Lemma request_eta (rq : request) :
  rq = mk_request (rq_method rq) (rq_url rq) (rq_params rq) (rq_json rq) (rq_headers rq).
Proof. destruct rq; reflexivity. Qed.

(** The POST the execution endpoints send for a flow id that is one plain
    path segment. *)
Lemma endpoint_execute_request (flow_id : string) (request : ExecuteFlowRequest)
    (Hf : forallb segment_char (list_ascii_of_string flow_id) = true)
    (Hd1 : flow_id <> ".") (Hd2 : flow_id <> "..") :
  execute_request default_service flow_id (endpoint_execution_request request) =
    mk_request "POST" ("http://localhost:7860/api/v1/run/" ++ flow_id) []
      (Some (JObject [("input_value", JString (req_input_value request));
                      ("output_type", JString "chat"); ("input_type", JString "chat");
                      ("tweaks", JObject (req_tweaks request))]))
      [("Content-Type", "application/json")].
Proof.
  rewrite request_eta at 1.
  destruct (plain_base_urls "http" "localhost:7860" flow_id (endpoint_execution_request request))
    as [Hu _]; try assumption; [left; reflexivity | intros E; discriminate E | reflexivity |].
  cbv zeta in Hu.
  change default_service with (LangflowService ("http" ++ "://" ++ "localhost:7860")).
  rewrite Hu. reflexivity.
Qed.

(** [GET /flows] never answers 500: it answers 200 with
    [{"flows": [flow.model_dump() ...]}] when [get_flows] returns, and
    otherwise 503 with ["Langflow service error: "] and the message of the
    [LangflowServiceError] [get_flows] raised. *)
Theorem api_get_flows_reply (net : nat -> transport) :
  (exists fls, snd (get_flows default_service net) = inl fls /\
               snd (api_get_flows net) = HttpOk (JObject [("flows", JArray (map flow_dump fls))])) \/
  (exists m, snd (get_flows default_service net) = inr (ServiceError m) /\
             snd (api_get_flows net) = HttpError 503 ("Langflow service error: " ++ m)).
Proof.
  unfold api_get_flows.
  destruct (get_flows default_service net) as [t [fls|e]] eqn:E.
  - left. exists fls. split; reflexivity.
  - right.
    assert (Hs : is_service_error e = true).
    { apply (catch_get_flows_handler_error
               (response <- make_request_with_retry net (flows_request default_service) 3 ;;
                flows_of_response response)).
      change (snd (get_flows default_service net) = inr e). rewrite E. reflexivity. }
    destruct (service_error_inv e Hs) as [m ->].
    exists m. split; reflexivity.
Qed.

(** When the platform cannot be reached (every one of the 4 attempts times
    out, fails to connect or gets a 5xx), [GET /flows] answers 503 after the
    4 requests and the 3 backoff sleeps, with the detail
    ["Langflow service error: Failed to make request after 4 attempts: "]
    and the last failure. *)
Theorem api_get_flows_unreachable (net : nat -> transport)
    (Hfail : forall i, i <= 3 -> retryable_failure (net i)) :
  exists e,
    classify (rq_url (flows_request default_service)) (net 3) = Retry e /\
    api_get_flows net =
      (backoff_events (flows_request default_service) 0 4,
       HttpError 503 ("Langflow service error: Failed to make request after 4 attempts: "
                      ++ exc_str e)).
Proof.
  destruct (retryable_classify (rq_url (flows_request default_service)) _ (Hfail 3 (le_n 3)))
    as [e He].
  exists e. split; [exact He|].
  assert (Hm : make_request_with_retry net (flows_request default_service) 3 =
                 (backoff_events (flows_request default_service) 0 4,
                  inr (ServiceError ("Failed to make request after " ++ str_of_nat (3 + 1)
                                     ++ " attempts: " ++ exc_str e)))).
  { unfold make_request_with_retry. apply retry_loop_exhausted; try lia; [|exact He].
    intros j Hj. apply retryable_classify, Hfail. lia. }
  unfold api_get_flows, get_flows. rewrite Hm, bind_inr.
  unfold catch, get_flows_handler. cbn [is_service_error raise]. rewrite app_nil_r.
  reflexivity.
Qed.

Lemma api_get_flows_unreachable_witness :
  api_get_flows (fun _ => TimedOut "timed out") =
    (backoff_events (flows_request default_service) 0 4,
     HttpError 503 ("Langflow service error: Failed to make request after 4 attempts: timed out")).
Proof.
  destruct (api_get_flows_unreachable (fun _ => TimedOut "timed out") (fun i _ => rf_timeout _))
    as [e [He Ha]].
  rewrite Ha. cbn in He. injection He as <-. reflexivity.
Defined.



(** [POST /test-flow] always answers 200 with the hard-coded flow id and
    [execution_result] set to the dump of the [FlowExecutionResponse] that
    [execute_flow] returns for that id; whatever the request, every request
    it sends is the POST to
    [http://localhost:7860/api/v1/run/de90b072-14d5-4983-b9ac-85156fef9bb4]
    with the request's [input_value] and [tweaks], 1 to 4 times. *)
Theorem api_test_flow_reply (net : nat -> transport) (request : ExecuteFlowRequest) :
  exists resp m,
    snd (execute_flow default_service net "de90b072-14d5-4983-b9ac-85156fef9bb4"
           (endpoint_execution_request request)) = inl resp /\
    snd (api_test_flow net request) =
      HttpOk (JObject [("flow_id", JString "de90b072-14d5-4983-b9ac-85156fef9bb4");
                       ("execution_result", response_dump resp)]) /\
    1 <= m <= 4 /\
    fst (api_test_flow net request) =
      backoff_events
        (mk_request "POST" "http://localhost:7860/api/v1/run/de90b072-14d5-4983-b9ac-85156fef9bb4" []
           (Some (JObject [("input_value", JString (req_input_value request));
                           ("output_type", JString "chat"); ("input_type", JString "chat");
                           ("tweaks", JObject (req_tweaks request))]))
           [("Content-Type", "application/json")]) 0 m.
Proof.
  destruct (execute_flow_returns default_service net hardcoded_flow_id
              (endpoint_execution_request request)) as [resp Hr].
  destruct (execute_flow_trace default_service net hardcoded_flow_id
              (endpoint_execution_request request)) as [m [Hm Ht]].
  rewrite (endpoint_execute_request hardcoded_flow_id request) in Ht;
    [| reflexivity | intros E; discriminate E | intros E; discriminate E].
  exists resp, m. split; [exact Hr|].
  unfold api_test_flow, gateway_reply.
  destruct (execute_flow default_service net hardcoded_flow_id (endpoint_execution_request request))
    as [t res] eqn:E.
  cbn in Hr, Ht. subst res. split; [reflexivity|]. split; [exact Hm|exact Ht].
Qed.

(** [GET /test-langflow] fails exactly when [GET /flows] fails, and then
    with the same 503 and the same detail; it never answers 500. *)
Theorem api_test_langflow_errors (net : nat -> transport) :
  (forall d, snd (api_get_flows net) = HttpError 503 d <-> snd (api_test_langflow net) = HttpError 503 d) /\
  (forall code d, snd (api_test_langflow net) = HttpError code d -> code = 503) /\
  ((exists b, snd (api_get_flows net) = HttpOk b) <-> (exists b, snd (api_test_langflow net) = HttpOk b)).
Proof.
  unfold api_get_flows, api_test_langflow.
  destruct (get_flows default_service net) as [t [fls|e]] eqn:E.
  - cbn. split; [intros d; split; intros H; discriminate H|].
    split; [intros code d H; discriminate H|]. split; intros _; eexists; reflexivity.
  - assert (Hs : is_service_error e = true).
    { apply (catch_get_flows_handler_error
               (response <- make_request_with_retry net (flows_request default_service) 3 ;;
                flows_of_response response)).
      change (snd (get_flows default_service net) = inr e). rewrite E. reflexivity. }
    destruct (service_error_inv e Hs) as [m ->]. cbn.
    split; [intros d; split; exact (fun H => H)|].
    split; [intros code d H; injection H as <- _; reflexivity|].
    split; intros [b H]; discriminate H.
Qed.

(** A platform listing that is already in the gateway's own output form,
    [{"flows": [flow.model_dump() ...]}], is relayed by [GET /flows]
    unchanged, and [GET /test-langflow] counts exactly those flows and shows
    the id and name of the first three, in order. *)
Theorem api_flows_relay (net : nat -> transport) (t : list event) (r : response)
    (fls : list FlowResponse)
    (H : make_request_with_retry net (flows_request default_service) 3 = (t, inl r))
    (B : body r = inl (JObject [("flows", JArray (map flow_dump fls))])) :
  api_get_flows net = (t, HttpOk (JObject [("flows", JArray (map flow_dump fls))])) /\
  api_test_langflow net =
    (t, HttpOk (JObject
       [("status", JString "success");
        ("message", JString ("Successfully connected to Langflow. Found "
                             ++ str_of_nat (length fls) ++ " flows."));
        ("flows_count", JInt (length fls));
        ("sample_flows",
         JArray (map (fun fl => JObject [("id", JString (id fl)); ("name", JString (name fl))])
                     (firstn 3 fls)))])).
Proof.
  assert (E : get_flows default_service net = (t, inl fls)).
  { rewrite (get_flows_after_request _ _ _ _ H).
    unfold flows_of_response, response_json. rewrite B, bind_ret.
    change (select_flows_data (JObject [("flows", JArray (map flow_dump fls))]))
      with (ret (JArray (map flow_dump fls))).
    rewrite bind_ret. unfold py_iter. rewrite bind_ret, parse_flows_dump. reflexivity. }
  unfold api_get_flows, api_test_langflow. rewrite E. split; reflexivity.
Qed.

Lemma api_flows_relay_witness :
  api_get_flows (net_body (JObject [("flows", JArray (map flow_dump [sample_flow]))])) =
    ([EvRequest (flows_request default_service)],
     HttpOk (JObject [("flows", JArray (map flow_dump [sample_flow]))])) /\
  api_test_langflow (net_body (JObject [("flows", JArray (map flow_dump [sample_flow]))])) =
    ([EvRequest (flows_request default_service)],
     HttpOk (JObject
       [("status", JString "success");
        ("message", JString ("Successfully connected to Langflow. Found "
                             ++ str_of_nat (length [sample_flow]) ++ " flows."));
        ("flows_count", JInt (length [sample_flow]));
        ("sample_flows",
         JArray (map (fun fl => JObject [("id", JString (id fl)); ("name", JString (name fl))])
                     (firstn 3 [sample_flow])))])).
Proof.
  apply (api_flows_relay (net_body (JObject [("flows", JArray (map flow_dump [sample_flow]))]))
           [EvRequest (flows_request default_service)]
           (mk_response 200 "OK" "" (inl (JObject [("flows", JArray (map flow_dump [sample_flow]))])))
           [sample_flow]); reflexivity.
Defined.
